(** * Range-request handler of the TeorMinimumEval development server

    A shallow embedding of [server.py]: the class [TeorMinimumEvalHandler]
    (a subclass of [http.server.SimpleHTTPRequestHandler]) with its methods
    [do_GET], [handle_range_request], [end_headers] and [do_OPTIONS].

    The handler is effectful code: it asks the file system questions, it
    appends lines to the response and it may raise.  It is modelled in a
    small state-and-exception monad whose state records what was written
    to the client, which file-system calls were made and what was printed.

    What the handler inherits from the Python standard library
    ([send_response], [send_header], [send_error], [int], [str.split] ...)
    is modelled after CPython; values that depend on the installation or
    on the clock are variables of the section.  Requests are those of
    HTTP/1.0 and later (for HTTP/0.9 the library writes no status line and
    no header at all). *)

From Stdlib Require Import ZArith List String Ascii Bool Lia.
From Stdlib Require Import Strings.Byte.
Import ListNotations.
Local Open Scope string_scope.
Local Open Scope Z_scope.

(** ** Python builtins on [str] and [int]

    Header values reach the handler decoded as ISO-8859-1, one character
    per byte, which is what [string] is. *)

Module Py.

Definition ord (c : ascii) : Z := Z.of_N (N_of_ascii c).

Definition is_digit (c : ascii) : bool := (48 <=? ord c) && (ord c <=? 57).

Definition digit_value (c : ascii) : Z := ord c - 48.

(** White space as [int] sees it: the ASCII characters of [Py_ISSPACE]
    and, in a non-ASCII string, the two Latin-1 characters that
    [str.isspace] accepts (NEL and NBSP), which are turned into blanks
    before parsing. *)
Definition is_space (c : ascii) : bool :=
  let n := ord c in
  ((9 <=? n) && (n <=? 13)) || (n =? 32) || (n =? 133) || (n =? 160).

(** [s.startswith(p)] *)
Fixpoint startswith (p s : string) : bool :=
  match p, s with
  | EmptyString, _ => true
  | String a p', String b s' => Ascii.eqb a b && startswith p' s'
  | String _ _, EmptyString => false
  end.

(** [s[n:]] *)
Fixpoint slice_from (n : nat) (s : string) : string :=
  match n, s with
  | O, _ => s
  | S n', String _ s' => slice_from n' s'
  | S _, EmptyString => EmptyString
  end.

(** [c in s] for a one-character [c] *)
Fixpoint contains (c : ascii) (s : string) : bool :=
  match s with
  | EmptyString => false
  | String a s' => Ascii.eqb a c || contains c s'
  end.

(** [s.partition(c)] when [c] occurs, [None] otherwise *)
Fixpoint cut (c : ascii) (s : string) : option (string * string) :=
  match s with
  | EmptyString => None
  | String a s' =>
      if Ascii.eqb a c then Some (EmptyString, s')
      else match cut c s' with
           | Some (h, t) => Some (String a h, t)
           | None => None
           end
  end.

(** [s.split(c, 1)]: one or two pieces *)
Definition split1 (c : ascii) (s : string) : list string :=
  match cut c s with
  | Some (h, t) => [h; t]
  | None => [s]
  end.

(** [bool(s)]: a string is true when it is not empty *)
Definition truthy (s : string) : bool :=
  match s with
  | EmptyString => false
  | String _ _ => true
  end.

(** *** [int(s)], base 10

    [ws* [+-]? digit (_? digit)* ws*]: blanks around the literal, one
    optional sign directly before the digits, single underscores between
    digits.  (The limit on the number of digits that recent CPython
    versions put on the conversion is not modelled.) *)

Fixpoint skip_space (s : string) : string :=
  match s with
  | EmptyString => EmptyString
  | String c s' => if is_space c then skip_space s' else s
  end.

Definition only_space (s : string) : bool :=
  match skip_space s with
  | EmptyString => true
  | String _ _ => false
  end.

(** The digit loop, entered after a digit: the value read so far is
    [acc]; returns the value and the unread rest. *)
Fixpoint scan_digits (acc : Z) (s : string) : option (Z * string) :=
  match s with
  | EmptyString => Some (acc, EmptyString)
  | String c s' =>
      if is_digit c then scan_digits (10 * acc + digit_value c) s'
      else if Ascii.eqb c "_" then
        match s' with
        | String d s'' =>
            if is_digit d then scan_digits (10 * acc + digit_value d) s''
            else None
        | EmptyString => None
        end
      else Some (acc, s)
  end.

Definition parse_nat (s : string) : option (Z * string) :=
  match s with
  | String c s' => if is_digit c then scan_digits (digit_value c) s' else None
  | EmptyString => None
  end.

Definition parse_sign (s : string) : Z * string :=
  match s with
  | String c s' =>
      if Ascii.eqb c "+" then (1, s')
      else if Ascii.eqb c "-" then (-1, s')
      else (1, s)
  | EmptyString => (1, s)
  end.

Definition int_literal (s : string) : option Z :=
  let (sign, digits) := parse_sign (skip_space s) in
  match parse_nat digits with
  | Some (v, rest) => if only_space rest then Some (sign * v) else None
  | None => None
  end.

(** *** [str(n)] *)

Definition digit_char (d : Z) : ascii := ascii_of_N (Z.to_N (48 + d)).

Fixpoint decimal (fuel : nat) (n : Z) (acc : string) : string :=
  match fuel with
  | O => acc
  | S fuel' =>
      let acc' := String (digit_char (n mod 10)) acc in
      if n <? 10 then acc' else decimal fuel' (n / 10) acc'
  end.

Definition str_nat (n : Z) : string :=
  decimal (S (Z.to_nat (Z.log2 n))) n EmptyString.

Definition str (n : Z) : string :=
  if n <? 0 then String "-" (str_nat (- n)) else str_nat n.

End Py.

(** ** The world around the handler *)

(** What a path of the file system leads to.  [os.path.isfile] holds of
    regular files only; everything else that exists is kept with the size
    [stat] reports for it. *)
Inductive node :=
| RegularFile (content : list byte)
| Directory (st_size : Z).

(** The request as the library hands it to the handler: [self.command],
    [self.path] and [self.headers] (name and value, in arrival order). *)
Record request := {
  command : string;
  path : string;
  headers : list (string * string)
}.

Inductive exn :=
| ValueError (msg : string)
| AttributeError (msg : string)
| OSError (msg : string).

(** [str(e)] *)
Definition exn_str (e : exn) : string :=
  match e with
  | ValueError msg | AttributeError msg | OSError msg => msg
  end.

Inductive outcome (A : Type) :=
| Ok (a : A)
| Raise (e : exn).
Arguments Ok {A} a.
Arguments Raise {A} e.

(** What goes to the client, in the order it is written. *)
Inductive wire_item :=
| StatusLine (code : Z) (message : string)
| HeaderLine (keyword value : string)
| BlankLine
| Payload (data : list byte).

(** Calls to the file system.  The first three are [stat] calls of
    [os.path]; the last three open the file or touch its content. *)
Inductive fs_call :=
| Exists (p : string)
| IsFile (p : string)
| GetSize (p : string)
| Open (p : string)
| Seek (p : string) (offset : Z)
| Read (p : string) (size : Z).

Definition touches_content (c : fs_call) : bool :=
  match c with
  | Open _ | Seek _ _ | Read _ _ => true
  | Exists _ | IsFile _ | GetSize _ => false
  end.

Record handler_state := {
  wfile : list wire_item;
  fs_calls : list fs_call;
  stdout : list string
}.

Definition initial_state : handler_state :=
  {| wfile := []; fs_calls := []; stdout := [] |}.

(** A binary file object: its content and the current position. *)
Record file_obj := {
  f_name : string;
  f_content : list byte;
  f_pos : Z
}.

(** *** The monad: state that survives a raise *)

Definition M (A : Type) : Type := handler_state -> outcome A * handler_state.

Definition ret {A} (a : A) : M A := fun st => (Ok a, st).

Definition bind {A B} (m : M A) (k : A -> M B) : M B :=
  fun st =>
    match m st with
    | (Ok a, st') => k a st'
    | (Raise e, st') => (Raise e, st')
    end.

Definition raise {A} (e : exn) : M A := fun st => (Raise e, st).

Definition lift {A} (o : outcome A) : M A := fun st => (o, st).

(** [try: body except Exception as e: handler(e)] *)
Definition try_except {A} (body : M A) (handler : exn -> M A) : M A :=
  fun st =>
    match body st with
    | (Ok a, st') => (Ok a, st')
    | (Raise e, st') => handler e st'
    end.

Notation "x <- m ;; k" := (bind m (fun x => k))
  (at level 61, m at next level, right associativity).
Notation "m ;; k" := (bind m (fun _ => k))
  (at level 61, right associativity).

(** The same for code that only computes. *)
Definition obind {A B} (o : outcome A) (k : A -> outcome B) : outcome B :=
  match o with
  | Ok a => k a
  | Raise e => Raise e
  end.

Definition emit (w : wire_item) : M unit :=
  fun st => (Ok tt, {| wfile := wfile st ++ [w];
                       fs_calls := fs_calls st;
                       stdout := stdout st |}).

Definition syscall (c : fs_call) : M unit :=
  fun st => (Ok tt, {| wfile := wfile st;
                       fs_calls := fs_calls st ++ [c];
                       stdout := stdout st |}).

Definition print (line : string) : M unit :=
  fun st => (Ok tt, {| wfile := wfile st;
                       fs_calls := fs_calls st;
                       stdout := stdout st ++ [line] |}).

(** *** [email.message.Message.get]

    The first header whose name matches, names compared in lower case.
    (Only ASCII letters are folded: a name with a Latin-1 letter differs
    from every ASCII name before and after folding.) *)

Definition lower_char (c : ascii) : ascii :=
  if (65 <=? Py.ord c) && (Py.ord c <=? 90)
  then ascii_of_N (N_of_ascii c + 32)
  else c.

Fixpoint lower (s : string) : string :=
  match s with
  | EmptyString => EmptyString
  | String c s' => String (lower_char c) (lower s')
  end.

Fixpoint Message_get (name : string) (hs : list (string * string)) : option string :=
  match hs with
  | [] => None
  | (k, v) :: hs' =>
      if String.eqb (lower k) (lower name) then Some v else Message_get name hs'
  end.

(** [bool(x)] of what [Message.get] returns: [None] and [''] are false. *)
Definition truthy_header (h : option string) : bool :=
  match h with
  | Some s => Py.truthy s
  | None => false
  end.

(** *** Reading the response back *)

Definition status_of (st : handler_state) : option Z :=
  match wfile st with
  | StatusLine code _ :: _ => Some code
  | _ => None
  end.

(** The header lines up to the blank line that ends them. *)
Fixpoint header_block (w : list wire_item) : list (string * string) :=
  match w with
  | [] => []
  | BlankLine :: _ => []
  | HeaderLine k v :: w' => (k, v) :: header_block w'
  | _ :: w' => header_block w'
  end.

Fixpoint all_payload (w : list wire_item) : list byte :=
  match w with
  | [] => []
  | Payload d :: w' => d ++ all_payload w'
  | _ :: w' => all_payload w'
  end.

(** Everything written after the blank line. *)
Fixpoint body_block (w : list wire_item) : list byte :=
  match w with
  | [] => []
  | BlankLine :: w' => all_payload w'
  | _ :: w' => body_block w'
  end.

Definition headers_of (st : handler_state) : list (string * string) :=
  header_block (wfile st).

Definition body_of (st : handler_state) : list byte :=
  body_block (wfile st).

Definition values_of (name : string) (hs : list (string * string)) : list string :=
  map snd (filter (fun kv => String.eqb (fst kv) name) hs).

Definition header_values (name : string) (st : handler_state) : list string :=
  values_of name (headers_of st).

(** The state a handler leaves behind when it serves one request. *)
Definition serve (m : M unit) : handler_state := snd (m initial_state).

(** [body] is the bytes [first .. last] of [content], both ends included. *)
Definition is_slice (body content : list byte) (first last : Z) : Prop :=
  Z.of_nat (List.length body) = last - first + 1 /\
  forall i : nat, (Z.of_nat i <= last - first) ->
    nth_error body i = nth_error content (Z.to_nat first + i).

(** The three headers [end_headers] adds. *)
Definition cors_headers : list (string * string) :=
  [("Access-Control-Allow-Origin", "*");
   ("Access-Control-Allow-Methods", "GET, POST, OPTIONS");
   ("Access-Control-Allow-Headers", "Content-Type, Range")].

(** ** Vocabulary for the facts below *)

(** The path a file-system call is about. *)
Definition call_path (c : fs_call) : string :=
  match c with
  | Exists p | IsFile p | GetSize p | Open p | Seek p _ | Read p _ => p
  end.

(** The characters an [int] literal is made of. *)
Definition int_char (c : ascii) : bool :=
  Py.is_digit c || Py.is_space c
  || Ascii.eqb c "+" || Ascii.eqb c "-" || Ascii.eqb c "_".




(** ** A small installation to run the handler on *)

Definition demo_translate_path (p : string) : string := "/srv/eval" ++ p.

Definition demo_log : list byte :=
  [x74; x65; x6f; x72; x6d; x69; x6e; x0a; x65; x76; x61; x6c; x0a].

Definition demo_fs (p : string) : option node :=
  if String.eqb p "/srv/eval/logs/run.log" then Some (RegularFile demo_log)
  else if String.eqb p "/srv/eval/logs/big.bin" then Some (RegularFile (repeat x2e 600))
  else if String.eqb p "/srv/eval/logs/empty.log" then Some (RegularFile [])
  else if String.eqb p "/srv/eval/logs" then Some (Directory 4096)
  else None.

(** The same installation after the log has grown by a line. *)
Definition demo_fs_grown (p : string) : option node :=
  if String.eqb p "/srv/eval/logs/run.log"
  then Some (RegularFile (demo_log ++ [x6d; x6f; x72; x65; x0a]))
  else demo_fs p.

Definition demo_version : string := "SimpleHTTP/0.6 Python/3.10.12".
Definition demo_date : string := "Tue, 03 Nov 2026 10:00:00 GMT".

Definition demo_responses (code : Z) : string :=
  if code =? 200 then "OK" else "???".

Definition demo_error_page (code : Z) (message : string) : list byte :=
  map byte_of_ascii (list_ascii_of_string ("<h1>" ++ Py.str code ++ " " ++ message ++ "</h1>")).

Definition demo_repr (s : string) : string := "'" ++ s ++ "'".

Definition demo_base_do_GET (end_headers : M unit) (self : request) : M unit :=
  emit (StatusLine 200 "OK") ;; end_headers.

Definition get_with_range (p range : string) : request :=
  {| command := "GET"; path := p; headers := [("Host", "localhost:8001"); ("Range", range)] |}.

(** ** The handler *)

Section Handler.

(** [translate_path] of the base class: from the request path to a path of
    the file system, below the directory the server was started in. *)
Variable translate_path : string -> string.

(** The file system while the request is served. *)
Variable fs : string -> option node.

(** [self.version_string()] and [self.date_time_string()]. *)
Variable version_string : string.
Variable date_time_string : string.

(** [self.responses[code][0]], the default reason phrase. *)
Variable responses : Z -> string.

(** The page [send_error] builds from [error_message_format], encoded. *)
Variable error_page : Z -> string -> list byte.

(** [repr(s)] *)
Variable repr : string -> string.

(** [SimpleHTTPRequestHandler.do_GET], which serves whole files and
    directory listings.  It ends its headers through [self.end_headers],
    so it is given the method of the subclass. *)
Variable SimpleHTTPRequestHandler_do_GET : M unit -> request -> M unit.

(** *** [os.path], [open] and the file object *)

Definition os_path_exists (p : string) : M bool :=
  syscall (Exists p) ;;
  ret (match fs p with Some _ => true | None => false end).

Definition os_path_isfile (p : string) : M bool :=
  syscall (IsFile p) ;;
  ret (match fs p with Some (RegularFile _) => true | _ => false end).

Definition os_path_getsize (p : string) : M Z :=
  syscall (GetSize p) ;;
  match fs p with
  | Some (RegularFile content) => ret (Z.of_nat (List.length content))
  | Some (Directory st_size) => ret st_size
  | None => raise (OSError "No such file or directory")
  end.

(** [open(p, 'rb')] *)
Definition open_rb (p : string) : M file_obj :=
  syscall (Open p) ;;
  match fs p with
  | Some (RegularFile content) =>
      ret {| f_name := p; f_content := content; f_pos := 0 |}
  | Some (Directory _) => raise (OSError "Is a directory")
  | None => raise (OSError "No such file or directory")
  end.

Definition seek (f : file_obj) (offset : Z) : M file_obj :=
  syscall (Seek (f_name f) offset) ;;
  if offset <? 0 then raise (OSError "Invalid argument")
  else ret {| f_name := f_name f; f_content := f_content f; f_pos := offset |}.

(** [f.read(size)]: at most [size] bytes from the position on, all of
    them when [size] is negative. *)
Definition read (f : file_obj) (size : Z) : M (list byte) :=
  syscall (Read (f_name f) size) ;;
  let rest := skipn (Z.to_nat (f_pos f)) (f_content f) in
  ret (if size <? 0 then rest else firstn (Z.to_nat size) rest).

(** *** [BaseHTTPRequestHandler] *)

Definition send_response_only (code : Z) (message : option string) : M unit :=
  emit (StatusLine code (match message with
                         | Some m => m
                         | None => responses code
                         end)).

Definition send_header (keyword value : string) : M unit :=
  emit (HeaderLine keyword value).

(** [send_response] also sends the [Server] and [Date] headers. *)
Definition send_response (code : Z) (message : option string) : M unit :=
  send_response_only code message ;;
  send_header "Server" version_string ;;
  send_header "Date" date_time_string.

Definition BaseHTTPRequestHandler_end_headers : M unit := emit BlankLine.

Definition wfile_write (data : list byte) : M unit := emit (Payload data).

(** *** [TeorMinimumEvalHandler] *)

Definition end_headers : M unit :=
  send_header "Access-Control-Allow-Origin" "*" ;;
  send_header "Access-Control-Allow-Methods" "GET, POST, OPTIONS" ;;
  send_header "Access-Control-Allow-Headers" "Content-Type, Range" ;;
  BaseHTTPRequestHandler_end_headers.

(** [send_error] of the library, run on this handler: its call of
    [self.end_headers()] is the method above. *)
Definition send_error (self : request) (code : Z) (message : string) : M unit :=
  send_response code (Some message) ;;
  send_header "Connection" "close" ;;
  if (200 <=? code) && negb ((code =? 204) || (code =? 205) || (code =? 304))
  then
    let body := error_page code message in
    send_header "Content-Type" "text/html;charset=utf-8" ;;
    send_header "Content-Length" (Py.str (Z.of_nat (List.length body))) ;;
    end_headers ;;
    if negb (String.eqb (command self) "HEAD") && negb (Nat.eqb (List.length body) 0)
    then wfile_write body
    else ret tt
  else end_headers.

(** [int(s)] *)
Definition int (s : string) : outcome Z :=
  match Py.int_literal s with
  | Some n => Ok n
  | None => Raise (ValueError ("invalid literal for int() with base 10: " ++ repr s))
  end.

(** Lines 50 to 52: the two bounds of the range, after defaulting. *)
Definition range_bounds (range_spec : string) (file_size : Z) : outcome (Z * Z) :=
  match Py.split1 "-" range_spec with
  | [start_str; end_str] =>
      obind (if Py.truthy start_str then int start_str else Ok 0) (fun start =>
      obind (if Py.truthy end_str then int end_str else Ok (file_size - 1)) (fun end_ =>
      Ok (start, end_)))
  | [_] => Raise (ValueError "not enough values to unpack (expected 2, got 1)")
  | _ => Raise (ValueError "too many values to unpack (expected 2)")
  end.

Definition handle_range_request (self : request) : M unit :=
  try_except
    (match Message_get "Range" (headers self) with
     | None => raise (AttributeError "'NoneType' object has no attribute 'startswith'")
     | Some range_header =>
         if negb (Py.startswith "bytes=" range_header)
         then send_error self 400 "Invalid Range header"
         else
           let file_path := translate_path (path self) in
           missing <- (found <- os_path_exists file_path ;;
                       if negb found then ret true
                       else (regular <- os_path_isfile file_path ;;
                             ret (negb regular))) ;;
           if missing then send_error self 404 "File not found"
           else
             file_size <- os_path_getsize file_path ;;
             let range_spec := Py.slice_from 6 range_header in
             if negb (Py.contains "-" range_spec)
             then send_error self 400 "Invalid Range header"
             else
               bounds <- lift (range_bounds range_spec file_size) ;;
               let (start, end_) := bounds in
               if (start <? 0) || (end_ >=? file_size) || (start >? end_)
               then send_error self 416 "Requested Range Not Satisfiable"
               else
                 f <- open_rb file_path ;;
                 f <- seek f start ;;
                 data <- read f (end_ - start + 1) ;;
                 send_response 206 (Some "Partial Content") ;;
                 send_header "Content-Type" "application/octet-stream" ;;
                 send_header "Content-Length" (Py.str (Z.of_nat (List.length data))) ;;
                 send_header "Content-Range"
                   ("bytes " ++ Py.str start ++ "-" ++ Py.str end_
                             ++ "/" ++ Py.str file_size) ;;
                 send_header "Accept-Ranges" "bytes" ;;
                 send_header "Access-Control-Allow-Origin" "*" ;;
                 send_header "Access-Control-Allow-Methods" "GET, POST, OPTIONS" ;;
                 send_header "Access-Control-Allow-Headers" "Content-Type, Range" ;;
                 end_headers ;;
                 wfile_write data
     end)
    (fun e =>
       print ("Error handling range request: " ++ exn_str e) ;;
       send_error self 500 ("Internal server error: " ++ exn_str e)).

Definition do_GET (self : request) : M unit :=
  let range_header := Message_get "Range" (headers self) in
  if truthy_header range_header
  then handle_range_request self
  else SimpleHTTPRequestHandler_do_GET end_headers self.

Definition do_OPTIONS (self : request) : M unit :=
  send_response 200 None ;;
  end_headers.

(** *** The answers of [handle_range_request], one per way through it *)

Definition stat_calls (p : string) : list fs_call :=
  [Exists p; IsFile p; GetSize p].

(** What [send_error] writes for a code that comes with a page. *)
Definition error_response (self : request) (code : Z) (message : string)
  : list wire_item :=
  StatusLine code message
  :: HeaderLine "Server" version_string
  :: HeaderLine "Date" date_time_string
  :: HeaderLine "Connection" "close"
  :: HeaderLine "Content-Type" "text/html;charset=utf-8"
  :: HeaderLine "Content-Length"
       (Py.str (Z.of_nat (List.length (error_page code message))))
  :: HeaderLine "Access-Control-Allow-Origin" "*"
  :: HeaderLine "Access-Control-Allow-Methods" "GET, POST, OPTIONS"
  :: HeaderLine "Access-Control-Allow-Headers" "Content-Type, Range"
  :: BlankLine
  :: (if negb (String.eqb (command self) "HEAD")
         && negb (Nat.eqb (List.length (error_page code message)) 0)
      then [Payload (error_page code message)]
      else []).

Definition partial_content_response (start end_ file_size : Z) (data : list byte)
  : list wire_item :=
  [StatusLine 206 "Partial Content";
   HeaderLine "Server" version_string;
   HeaderLine "Date" date_time_string;
   HeaderLine "Content-Type" "application/octet-stream";
   HeaderLine "Content-Length" (Py.str (Z.of_nat (List.length data)));
   HeaderLine "Content-Range"
     ("bytes " ++ Py.str start ++ "-" ++ Py.str end_ ++ "/" ++ Py.str file_size);
   HeaderLine "Accept-Ranges" "bytes";
   HeaderLine "Access-Control-Allow-Origin" "*";
   HeaderLine "Access-Control-Allow-Methods" "GET, POST, OPTIONS";
   HeaderLine "Access-Control-Allow-Headers" "Content-Type, Range";
   HeaderLine "Access-Control-Allow-Origin" "*";
   HeaderLine "Access-Control-Allow-Methods" "GET, POST, OPTIONS";
   HeaderLine "Access-Control-Allow-Headers" "Content-Type, Range";
   BlankLine;
   Payload data].

(** The state after the [except] clause has dealt with [e]. *)
Definition failure_state (self : request) (e : exn) (calls : list fs_call)
  : handler_state :=
  {| wfile := error_response self 500 ("Internal server error: " ++ exn_str e);
     fs_calls := calls;
     stdout := ["Error handling range request: " ++ exn_str e] |}.

Definition error_state (self : request) (code : Z) (message : string)
  (calls : list fs_call) : handler_state :=
  {| wfile := error_response self code message;
     fs_calls := calls;
     stdout := [] |}.

(** The eight ways through [handle_range_request], each with the
    condition that selects it and the state it leaves. *)
Inductive served (self : request) : handler_state -> Prop :=
| served_no_header :
    Message_get "Range" (headers self) = None ->
    served self
      (failure_state self
         (AttributeError "'NoneType' object has no attribute 'startswith'") [])
| served_other_unit range_header :
    Message_get "Range" (headers self) = Some range_header ->
    Py.startswith "bytes=" range_header = false ->
    served self (error_state self 400 "Invalid Range header" [])
| served_missing range_spec :
    Message_get "Range" (headers self) = Some ("bytes=" ++ range_spec) ->
    fs (translate_path (path self)) = None ->
    served self
      (error_state self 404 "File not found"
         [Exists (translate_path (path self))])
| served_not_regular range_spec st_size :
    Message_get "Range" (headers self) = Some ("bytes=" ++ range_spec) ->
    fs (translate_path (path self)) = Some (Directory st_size) ->
    served self
      (error_state self 404 "File not found"
         [Exists (translate_path (path self));
          IsFile (translate_path (path self))])
| served_no_dash range_spec content :
    Message_get "Range" (headers self) = Some ("bytes=" ++ range_spec) ->
    fs (translate_path (path self)) = Some (RegularFile content) ->
    Py.contains "-" range_spec = false ->
    served self
      (error_state self 400 "Invalid Range header"
         (stat_calls (translate_path (path self))))
| served_bad_bound range_spec content e :
    Message_get "Range" (headers self) = Some ("bytes=" ++ range_spec) ->
    fs (translate_path (path self)) = Some (RegularFile content) ->
    Py.contains "-" range_spec = true ->
    range_bounds range_spec (Z.of_nat (List.length content)) = Raise e ->
    served self
      (failure_state self e (stat_calls (translate_path (path self))))
| served_unsatisfiable range_spec content start end_ :
    Message_get "Range" (headers self) = Some ("bytes=" ++ range_spec) ->
    fs (translate_path (path self)) = Some (RegularFile content) ->
    range_bounds range_spec (Z.of_nat (List.length content)) = Ok (start, end_) ->
    0 <= start ->
    end_ >= Z.of_nat (List.length content) \/ start > end_ ->
    served self
      (error_state self 416 "Requested Range Not Satisfiable"
         (stat_calls (translate_path (path self))))
| served_satisfiable range_spec content start end_ :
    Message_get "Range" (headers self) = Some ("bytes=" ++ range_spec) ->
    fs (translate_path (path self)) = Some (RegularFile content) ->
    range_bounds range_spec (Z.of_nat (List.length content)) = Ok (start, end_) ->
    0 <= start -> start <= end_ -> end_ <= Z.of_nat (List.length content) - 1 ->
    served self
      {| wfile :=
           partial_content_response start end_ (Z.of_nat (List.length content))
             (firstn (Z.to_nat (end_ - start + 1))
                     (skipn (Z.to_nat start) content));
         fs_calls :=
           stat_calls (translate_path (path self))
           ++ [Open (translate_path (path self));
               Seek (translate_path (path self)) start;
               Read (translate_path (path self)) (end_ - start + 1)];
         stdout := [] |}.

(** ** Facts about the builtins *)

Section PyFacts.

Import Py.

Lemma cut_contains c s h t :
  cut c s = Some (h, t) -> contains c s = true.
Proof.
  revert h t. induction s as [|a s IH]; intros h t; simpl.
  - discriminate.
  - destruct (Ascii.eqb a c); [reflexivity|].
    destruct (cut c s) as [[h' t']|]; [|discriminate].
    intros _. simpl. eapply IH; reflexivity.
Qed.

Lemma contains_cut c s :
  contains c s = true -> exists h t, cut c s = Some (h, t).
Proof.
  induction s as [|a s IH]; simpl.
  - discriminate.
  - destruct (Ascii.eqb a c); simpl.
    + intros _. eauto.
    + intros H. destruct (IH H) as (h & t & ->). eauto.
Qed.

(** The piece before the first separator holds no separator, and the two
    pieces put the string together again. *)
Lemma cut_spec c s h t :
  cut c s = Some (h, t) ->
  contains c h = false /\ s = h ++ String c t.
Proof.
  revert h t. induction s as [|a s IH]; intros h t; simpl.
  - discriminate.
  - destruct (Ascii.eqb a c) eqn:E.
    + intros [= <- <-]. apply Ascii.eqb_eq in E. subst. split; reflexivity.
    + destruct (cut c s) as [[h' t']|]; [|discriminate].
      intros [= <- <-]. destruct (IH h' t' eq_refl) as [Hc ->].
      simpl. rewrite E, Hc. split; reflexivity.
Qed.

Lemma split1_two c s a b :
  split1 c s = [a; b] ->
  contains c s = true /\ contains c a = false /\ s = a ++ String c b.
Proof.
  unfold split1. destruct (cut c s) as [[h t]|] eqn:E; [|discriminate].
  intros [= <- <-]. split; [eapply cut_contains; eassumption|].
  apply cut_spec; assumption.
Qed.

Lemma split1_cases c s :
  (exists a b, split1 c s = [a; b]) \/ split1 c s = [s].
Proof.
  unfold split1. destruct (cut c s) as [[h t]|]; eauto.
Qed.

Lemma startswith_bytes h :
  startswith "bytes=" h = true -> h = "bytes=" ++ slice_from 6 h.
Proof.
  intros H.
  do 6 (destruct h as [|? h]; cbn [startswith] in H; [discriminate|];
        apply andb_prop in H; destruct H as [E H];
        apply Ascii.eqb_eq in E; subst).
  reflexivity.
Qed.

Lemma startswith_prefix range_spec :
  startswith "bytes=" ("bytes=" ++ range_spec) = true.
Proof. reflexivity. Qed.

Lemma slice_from_prefix range_spec :
  slice_from 6 ("bytes=" ++ range_spec) = range_spec.
Proof. reflexivity. Qed.

Lemma skip_space_contains c s :
  contains c s = false -> contains c (skip_space s) = false.
Proof.
  induction s as [|a s IH]; simpl; [reflexivity|].
  intros H. apply orb_false_elim in H. destruct H as [Ha Hs].
  destruct (is_space a); [auto|]. simpl. now rewrite Ha, Hs.
Qed.

Lemma digit_value_range c :
  is_digit c = true -> 0 <= digit_value c <= 9.
Proof.
  unfold is_digit, digit_value. intros H.
  apply andb_prop in H. destruct H as [Hlo Hhi].
  apply Z.leb_le in Hlo, Hhi. lia.
Qed.

Lemma scan_digits_nonneg s : forall acc v rest,
  0 <= acc -> scan_digits acc s = Some (v, rest) -> 0 <= v.
Proof.
  induction s as [s IH] using
    (well_founded_induction (well_founded_ltof _ String.length)).
  destruct s as [|c s]; intros acc v rest Hacc; simpl.
  - now intros [= <- _].
  - destruct (is_digit c) eqn:Hc.
    + intros H. pose proof (digit_value_range c Hc).
      apply (IH s) with (acc := 10 * acc + digit_value c) (rest := rest);
        [unfold ltof; simpl; lia | lia | exact H].
    + destruct (Ascii.eqb c "_").
      * destruct s as [|d s]; [discriminate|].
        destruct (is_digit d) eqn:Hd; [|discriminate].
        intros H. pose proof (digit_value_range d Hd).
        apply (IH s) with (acc := 10 * acc + digit_value d) (rest := rest);
          [unfold ltof; simpl; lia | lia | exact H].
      * now intros [= <- _].
Qed.

Lemma parse_nat_nonneg s v rest :
  parse_nat s = Some (v, rest) -> 0 <= v.
Proof.
  destruct s as [|c s]; simpl; [discriminate|].
  destruct (is_digit c) eqn:Hc; [|discriminate].
  apply scan_digits_nonneg. pose proof (digit_value_range c Hc). lia.
Qed.

(** A literal without a minus sign does not denote a negative number. *)
Lemma int_literal_nonneg s n :
  contains "-" s = false -> int_literal s = Some n -> 0 <= n.
Proof.
  intros Hs. apply skip_space_contains in Hs. unfold int_literal, parse_sign.
  destruct (skip_space s) as [|c r] eqn:E.
  - simpl. discriminate.
  - simpl in Hs. apply orb_false_elim in Hs. destruct Hs as [Hc _].
    rewrite Hc.
    destruct (Ascii.eqb c "+").
    + destruct (parse_nat r) as [[v rest]|] eqn:P; [|discriminate].
      destruct (only_space rest); [|discriminate].
      intros [= <-]. apply parse_nat_nonneg in P. now destruct v.
    + destruct (parse_nat (String c r)) as [[v rest]|] eqn:P; [|discriminate].
      destruct (only_space rest); [|discriminate].
      intros [= <-]. apply parse_nat_nonneg in P. now destruct v.
Qed.

Lemma digit_not_space c : is_digit c = true -> is_space c = false.
Proof.
  intros H. pose proof (digit_value_range c H) as R.
  unfold digit_value in R. unfold is_space. cbv zeta.
  repeat apply orb_false_intro; try apply andb_false_intro2; lia.
Qed.

Lemma digit_not_sign c :
  is_digit c = true -> Ascii.eqb c "+" = false /\ Ascii.eqb c "-" = false.
Proof.
  intros H. split.
  - destruct (Ascii.eqb_spec c "+") as [->|]; [discriminate H | reflexivity].
  - destruct (Ascii.eqb_spec c "-") as [->|]; [discriminate H | reflexivity].
Qed.

Lemma digit_char_spec d :
  0 <= d <= 9 ->
  is_digit (digit_char d) = true /\ digit_value (digit_char d) = d.
Proof.
  intros H.
  assert (d = 0 \/ d = 1 \/ d = 2 \/ d = 3 \/ d = 4 \/
          d = 5 \/ d = 6 \/ d = 7 \/ d = 8 \/ d = 9) as C by lia.
  repeat (destruct C as [->|C]; [split; reflexivity|]).
  subst. split; reflexivity.
Qed.

Lemma scan_digits_step c s acc :
  is_digit c = true ->
  scan_digits acc (String c s) = scan_digits (10 * acc + digit_value c) s.
Proof. intros H. simpl. now rewrite H. Qed.

(** Reading back what [decimal] wrote in front of [tail]. *)
Lemma scan_decimal fuel : forall n tail,
  (0 < fuel)%nat -> 0 <= n < 10 ^ Z.of_nat fuel ->
  exists len c r,
    0 <= len /\
    decimal fuel n tail = String c r /\ is_digit c = true /\
    forall k, scan_digits k (decimal fuel n tail)
              = scan_digits (k * 10 ^ len + n) tail.
Proof.
  induction fuel as [|fuel IH]; intros n tail Hf Hn; [lia|].
  assert (0 <= n mod 10 <= 9) as Hd by (pose proof (Z.mod_pos_bound n 10); lia).
  destruct (digit_char_spec _ Hd) as [Dd Dv].
  cbn [decimal]. cbv zeta. destruct (n <? 10) eqn:E.
  - apply Z.ltb_lt in E. exists 1, (digit_char (n mod 10)), tail.
    repeat split; [lia | assumption |]. intros k.
    rewrite scan_digits_step, Dv by assumption.
    rewrite Z.mod_small by lia. f_equal. lia.
  - apply Z.ltb_ge in E.
    assert (1 <= n / 10) as Hq by (apply Z.div_le_lower_bound; lia).
    assert (n / 10 < 10 ^ Z.of_nat fuel) as Hu.
    { apply Z.div_lt_upper_bound; [lia|].
      replace (Z.of_nat (S fuel)) with (Z.succ (Z.of_nat fuel)) in Hn by lia.
      rewrite Z.pow_succ_r in Hn by lia. lia. }
    assert (0 < fuel)%nat as Hf'.
    { destruct fuel; [simpl in Hu; lia | lia]. }
    destruct (IH (n / 10) (String (digit_char (n mod 10)) tail) Hf')
      as (len & c & r & Hl & Hs & Hc & Hk); [lia|].
    exists (Z.succ len), c, r. repeat split; [lia | assumption..|].
    intros k. rewrite Hk, scan_digits_step, Dv by assumption.
    f_equal. rewrite Z.pow_succ_r by lia.
    pose proof (Z.div_mod n 10). lia.
Qed.

Lemma str_nat_fuel n :
  0 <= n -> 0 <= n < 10 ^ Z.of_nat (S (Z.to_nat (Z.log2 n))).
Proof.
  intros Hn. split; [assumption|].
  pose proof (Z.log2_nonneg n) as Hl.
  replace (Z.of_nat (S (Z.to_nat (Z.log2 n)))) with (Z.succ (Z.log2 n)) by lia.
  assert (n = 0 \/ 0 < n) as [->|Hp] by lia.
  - reflexivity.
  - destruct (Z.log2_spec n Hp) as [_ Hu].
    assert (2 ^ Z.succ (Z.log2 n) <= 10 ^ Z.succ (Z.log2 n))
      by (apply Z.pow_le_mono_l; lia).
    lia.
Qed.

(** [str_nat] writes a digit first, and the digits read back as [n]. *)
Lemma parse_str_nat n :
  0 <= n ->
  exists c r, str_nat n = String c r /\ is_digit c = true /\
              parse_nat (str_nat n) = Some (n, EmptyString).
Proof.
  intros Hn. unfold str_nat.
  destruct (scan_decimal (S (Z.to_nat (Z.log2 n))) n EmptyString)
    as (len & c & r & Hl & Hs & Hc & Hk); [lia | now apply str_nat_fuel |].
  exists c, r. repeat split; [assumption..|].
  specialize (Hk 0). rewrite Hs in *.
  rewrite scan_digits_step in Hk by assumption.
  cbn [parse_nat]. rewrite Hc.
  replace (digit_value c) with (10 * 0 + digit_value c) by lia.
  rewrite Hk. cbn [scan_digits]. do 2 f_equal.
Qed.

(** [int(str(n)) == n] *)
Lemma int_literal_str n : int_literal (str n) = Some n.
Proof.
  unfold str. destruct (n <? 0) eqn:E.
  - apply Z.ltb_lt in E.
    destruct (parse_str_nat (- n)) as (c & r & Hs & Hc & Hp); [lia|].
    unfold int_literal. cbn [skip_space]. 
    change (is_space "-") with false. cbv iota.
    unfold parse_sign.
    change (Ascii.eqb "-" "+") with false. change (Ascii.eqb "-" "-") with true.
    cbv iota. rewrite Hp. cbn [only_space skip_space]. f_equal. lia.
  - apply Z.ltb_ge in E.
    destruct (parse_str_nat n) as (c & r & Hs & Hc & Hp); [lia|].
    unfold int_literal. rewrite Hs in *. cbn [skip_space].
    rewrite (digit_not_space c Hc). unfold parse_sign.
    destruct (digit_not_sign c Hc) as [-> ->].
    rewrite Hp. cbn [only_space skip_space]. f_equal. lia.
Qed.

End PyFacts.

(** ** Facts about the handler *)

Lemma range_bounds_inv range_spec file_size start end_ :
  range_bounds range_spec file_size = Ok (start, end_) ->
  exists start_str end_str,
    Py.split1 "-" range_spec = [start_str; end_str] /\
    (if Py.truthy start_str then int start_str else Ok 0) = Ok start /\
    (if Py.truthy end_str then int end_str else Ok (file_size - 1)) = Ok end_.
Proof.
  unfold range_bounds.
  destruct (split1_cases "-" range_spec) as [(a & b & ->) | ->];
    [|discriminate].
  intros H. exists a, b. split; [reflexivity|].
  destruct (if Py.truthy a then int a else Ok 0) as [x|]; [|discriminate].
  destruct (if Py.truthy b then int b else Ok (file_size - 1)) as [y|];
    [|discriminate].
  simpl in H. injection H as <- <-. split; reflexivity.
Qed.

Lemma range_bounds_contains range_spec file_size start end_ :
  range_bounds range_spec file_size = Ok (start, end_) ->
  Py.contains "-" range_spec = true.
Proof.
  intros H. apply range_bounds_inv in H.
  destruct H as (a & b & Hs & _). now apply split1_two in Hs.
Qed.

(** The lower bound is never negative: [start_str] is what stands before
    the first ['-'], so [int] finds no sign to read. *)
Lemma range_bounds_start_nonneg range_spec file_size start end_ :
  range_bounds range_spec file_size = Ok (start, end_) -> 0 <= start.
Proof.
  intros H. apply range_bounds_inv in H.
  destruct H as (a & b & Hs & Ha & _).
  apply split1_two in Hs. destruct Hs as (_ & Hc & _).
  destruct (Py.truthy a).
  - unfold int in Ha. destruct (Py.int_literal a) as [n|] eqn:E; [|discriminate].
    injection Ha as <-. eapply int_literal_nonneg; eassumption.
  - injection Ha as <-. lia.
Qed.

Lemma send_error_run self code message st :
  exists tail,
    send_error self code message st =
    (Ok tt, {| wfile := wfile st ++ StatusLine code message :: tail;
               fs_calls := fs_calls st;
               stdout := stdout st |}).
Proof.
  unfold send_error, send_response, send_response_only, send_header,
    end_headers, BaseHTTPRequestHandler_end_headers, wfile_write, bind, emit, ret.
  destruct ((200 <=? code) && negb ((code =? 204) || (code =? 205) || (code =? 304)));
    [destruct (negb (String.eqb (command self) "HEAD")
               && negb (Nat.eqb (List.length (error_page code message)) 0))|];
    cbn -[Py.str]; repeat rewrite <- app_assoc; cbn -[Py.str];
    eexists; reflexivity.
Qed.

Ltac run_handler :=
  unfold handle_range_request, try_except, os_path_exists, os_path_isfile,
    os_path_getsize, open_rb, seek, read, lift, bind, syscall, ret, raise, print;
  cbn -[Py.str send_error Py.contains Py.startswith Py.slice_from String.append].

Ltac enter Hh :=
  unfold serve; run_handler; rewrite Hh; run_handler;
  rewrite ?startswith_prefix, ?slice_from_prefix; run_handler.

Ltac finish_error :=
  match goal with
  | |- context [send_error ?s ?c ?m ?st] =>
      let tail := fresh "tail" in
      destruct (send_error_run s c m st) as [tail ->]
  end.

(** The whole of a satisfiable range request. *)
Lemma partial_content_run self range_spec content start end_ :
  Message_get "Range" (headers self) = Some ("bytes=" ++ range_spec) ->
  fs (translate_path (path self)) = Some (RegularFile content) ->
  range_bounds range_spec (Z.of_nat (List.length content)) = Ok (start, end_) ->
  0 <= start -> start <= end_ -> end_ <= Z.of_nat (List.length content) - 1 ->
  let p := translate_path (path self) in
  let data := firstn (Z.to_nat (end_ - start + 1)) (skipn (Z.to_nat start) content) in
  serve (handle_range_request self) =
  {| wfile :=
       [StatusLine 206 "Partial Content";
        HeaderLine "Server" version_string;
        HeaderLine "Date" date_time_string;
        HeaderLine "Content-Type" "application/octet-stream";
        HeaderLine "Content-Length" (Py.str (Z.of_nat (List.length data)));
        HeaderLine "Content-Range"
          ("bytes " ++ Py.str start ++ "-" ++ Py.str end_ ++ "/"
                    ++ Py.str (Z.of_nat (List.length content)));
        HeaderLine "Accept-Ranges" "bytes";
        HeaderLine "Access-Control-Allow-Origin" "*";
        HeaderLine "Access-Control-Allow-Methods" "GET, POST, OPTIONS";
        HeaderLine "Access-Control-Allow-Headers" "Content-Type, Range";
        HeaderLine "Access-Control-Allow-Origin" "*";
        HeaderLine "Access-Control-Allow-Methods" "GET, POST, OPTIONS";
        HeaderLine "Access-Control-Allow-Headers" "Content-Type, Range";
        BlankLine;
        Payload data];
     fs_calls := [Exists p; IsFile p; GetSize p; Open p; Seek p start;
                  Read p (end_ - start + 1)];
     stdout := [] |}.
Proof.
  intros Hh Hfs Hb H0 H1 H2 p data.
  pose proof (range_bounds_contains _ _ _ _ Hb) as Hc.
  enter Hh. rewrite Hfs. run_handler. rewrite Hc. run_handler. rewrite Hb.
  replace ((start <? 0) || (end_ >=? Z.of_nat (List.length content))
           || (start >? end_)) with false
    by (symmetry; repeat apply orb_false_intro; lia).
  run_handler.
  replace (start <? 0) with false by (symmetry; lia).
  run_handler.
  replace (end_ - start + 1 <? 0) with false by (symmetry; lia).
  reflexivity.
Qed.

(** The other ways through [handle_range_request], one lemma each. *)

Lemma no_header_run self :
  Message_get "Range" (headers self) = None ->
  status_of (serve (handle_range_request self)) = Some 500.
Proof.
  intros Hh. enter Hh.
  finish_error. reflexivity.
Qed.

Lemma other_unit_run self range_header :
  Message_get "Range" (headers self) = Some range_header ->
  Py.startswith "bytes=" range_header = false ->
  status_of (serve (handle_range_request self)) = Some 400 /\
  fs_calls (serve (handle_range_request self)) = [].
Proof.
  intros Hh Hp. enter Hh.
  rewrite Hp. run_handler.
  finish_error. split; reflexivity.
Qed.

Lemma not_found_run self range_spec :
  Message_get "Range" (headers self) = Some ("bytes=" ++ range_spec) ->
  (forall content, fs (translate_path (path self)) <> Some (RegularFile content)) ->
  status_of (serve (handle_range_request self)) = Some 404.
Proof.
  intros Hh Hfs. enter Hh.
  destruct (fs (translate_path (path self))) as [[content|st_size]|] eqn:E.
  - now destruct (Hfs content).
  - run_handler. finish_error. reflexivity.
  - run_handler. finish_error. reflexivity.
Qed.

Lemma no_dash_run self range_spec content :
  Message_get "Range" (headers self) = Some ("bytes=" ++ range_spec) ->
  fs (translate_path (path self)) = Some (RegularFile content) ->
  Py.contains "-" range_spec = false ->
  status_of (serve (handle_range_request self)) = Some 400.
Proof.
  intros Hh Hfs Hc. enter Hh.
  rewrite Hfs. run_handler. rewrite Hc. run_handler.
  finish_error. reflexivity.
Qed.

Lemma bad_bound_run self range_spec content e :
  Message_get "Range" (headers self) = Some ("bytes=" ++ range_spec) ->
  fs (translate_path (path self)) = Some (RegularFile content) ->
  Py.contains "-" range_spec = true ->
  range_bounds range_spec (Z.of_nat (List.length content)) = Raise e ->
  status_of (serve (handle_range_request self)) = Some 500.
Proof.
  intros Hh Hfs Hc Hb. enter Hh.
  rewrite Hfs. run_handler. rewrite Hc. run_handler. rewrite Hb. run_handler.
  finish_error. reflexivity.
Qed.

Lemma unsatisfiable_run self range_spec content start end_ :
  Message_get "Range" (headers self) = Some ("bytes=" ++ range_spec) ->
  fs (translate_path (path self)) = Some (RegularFile content) ->
  range_bounds range_spec (Z.of_nat (List.length content)) = Ok (start, end_) ->
  (start <? 0) || (end_ >=? Z.of_nat (List.length content)) || (start >? end_) = true ->
  status_of (serve (handle_range_request self)) = Some 416 /\
  fs_calls (serve (handle_range_request self)) =
    [Exists (translate_path (path self));
     IsFile (translate_path (path self));
     GetSize (translate_path (path self))].
Proof.
  intros Hh Hfs Hb Hv.
  pose proof (range_bounds_contains _ _ _ _ Hb) as Hc.
  enter Hh. rewrite Hfs. run_handler. rewrite Hc. run_handler. rewrite Hb. rewrite Hv.
  run_handler. finish_error. split; reflexivity.
Qed.

(** Every request that answers 416 went through the validation, with a
    range whose bounds were read and found out of place. *)
Lemma status_416_inv self :
  status_of (serve (handle_range_request self)) = Some 416 ->
  exists range_spec content start end_,
    Message_get "Range" (headers self) = Some ("bytes=" ++ range_spec) /\
    fs (translate_path (path self)) = Some (RegularFile content) /\
    range_bounds range_spec (Z.of_nat (List.length content)) = Ok (start, end_) /\
    (start <? 0) || (end_ >=? Z.of_nat (List.length content)) || (start >? end_) = true.
Proof.
  intros H.
  destruct (Message_get "Range" (headers self)) as [h|] eqn:Hh;
    [|rewrite (no_header_run self Hh) in H; discriminate].
  destruct (Py.startswith "bytes=" h) eqn:Hp;
    [|destruct (other_unit_run self h Hh Hp) as [E _]; rewrite E in H; discriminate].
  apply startswith_bytes in Hp. set (range_spec := Py.slice_from 6 h) in *.
  rewrite Hp in Hh.
  destruct (fs (translate_path (path self))) as [[content|st_size]|] eqn:Hfs;
    [| rewrite (not_found_run self range_spec Hh) in H;
       [discriminate | rewrite Hfs; discriminate] ..].
  destruct (Py.contains "-" range_spec) eqn:Hc;
    [|rewrite (no_dash_run self range_spec content Hh Hfs Hc) in H; discriminate].
  destruct (range_bounds range_spec (Z.of_nat (List.length content)))
    as [[start end_]|e] eqn:Hb;
    [|rewrite (bad_bound_run self range_spec content e Hh Hfs Hc Hb) in H;
      discriminate].
  destruct ((start <? 0) || (end_ >=? Z.of_nat (List.length content))
            || (start >? end_)) eqn:Hv.
  - exists range_spec, content, start, end_.
    repeat split; try assumption. now f_equal.
  - apply orb_false_elim in Hv. destruct Hv as [Hv H3].
    apply orb_false_elim in Hv. destruct Hv as [H1 H2].
    rewrite (partial_content_run self range_spec content start end_ Hh Hfs Hb)
      in H by lia.
    discriminate.
Qed.

(** Likewise, a 206 is the answer to a satisfiable range only. *)
Lemma status_206_inv self :
  status_of (serve (handle_range_request self)) = Some 206 ->
  exists range_spec content start end_,
    Message_get "Range" (headers self) = Some ("bytes=" ++ range_spec) /\
    fs (translate_path (path self)) = Some (RegularFile content) /\
    range_bounds range_spec (Z.of_nat (List.length content)) = Ok (start, end_) /\
    0 <= start <= end_ /\ end_ <= Z.of_nat (List.length content) - 1.
Proof.
  intros H.
  destruct (Message_get "Range" (headers self)) as [h|] eqn:Hh;
    [|rewrite (no_header_run self Hh) in H; discriminate].
  destruct (Py.startswith "bytes=" h) eqn:Hp;
    [|destruct (other_unit_run self h Hh Hp) as [E _]; rewrite E in H; discriminate].
  apply startswith_bytes in Hp. set (range_spec := Py.slice_from 6 h) in *.
  rewrite Hp in Hh.
  destruct (fs (translate_path (path self))) as [[content|st_size]|] eqn:Hfs;
    [| rewrite (not_found_run self range_spec Hh) in H;
       [discriminate | rewrite Hfs; discriminate] ..].
  destruct (Py.contains "-" range_spec) eqn:Hc;
    [|rewrite (no_dash_run self range_spec content Hh Hfs Hc) in H; discriminate].
  destruct (range_bounds range_spec (Z.of_nat (List.length content)))
    as [[start end_]|e] eqn:Hb;
    [|rewrite (bad_bound_run self range_spec content e Hh Hfs Hc Hb) in H;
      discriminate].
  destruct ((start <? 0) || (end_ >=? Z.of_nat (List.length content))
            || (start >? end_)) eqn:Hv.
  - destruct (unsatisfiable_run self range_spec content start end_ Hh Hfs Hb Hv)
      as [E _].
    rewrite E in H. discriminate.
  - apply orb_false_elim in Hv. destruct Hv as [Hv H3].
    apply orb_false_elim in Hv. destruct Hv as [H1 H2].
    exists range_spec, content, start, end_.
    repeat split; try assumption; try lia. now f_equal.
Qed.

Lemma is_slice_read content start end_ :
  0 <= start -> start <= end_ -> end_ <= Z.of_nat (List.length content) - 1 ->
  is_slice (firstn (Z.to_nat (end_ - start + 1)) (skipn (Z.to_nat start) content))
           content start end_.
Proof.
  intros H0 H1 H2. split.
  - rewrite length_firstn, length_skipn. lia.
  - intros i Hi. rewrite nth_error_firstn, nth_error_skipn.
    replace (Nat.ltb i (Z.to_nat (end_ - start + 1))) with true; [reflexivity|].
    symmetry. apply Nat.ltb_lt. lia.
Qed.

(** ** The claims *)

(** C1.  For a file of [file_size] bytes and a range whose bounds, parsed
    and defaulted, satisfy [0 <= start <= end <= file_size - 1], the
    handler answers 206; the body is the bytes [start .. end] of the file,
    [Content-Length] is [end - start + 1] and [Content-Range] is
    [bytes <start>-<end>/<file_size>]. *)
Theorem range_request_serves_slice self range_spec content file_size start end_ :
  Message_get "Range" (headers self) = Some ("bytes=" ++ range_spec) ->
  fs (translate_path (path self)) = Some (RegularFile content) ->
  file_size = Z.of_nat (List.length content) ->
  range_bounds range_spec file_size = Ok (start, end_) ->
  0 <= start -> start <= end_ -> end_ <= file_size - 1 ->
  let response := serve (handle_range_request self) in
  status_of response = Some 206 /\
  is_slice (body_of response) content start end_ /\
  header_values "Content-Length" response = [Py.str (end_ - start + 1)] /\
  header_values "Content-Range" response =
    ["bytes " ++ Py.str start ++ "-" ++ Py.str end_ ++ "/" ++ Py.str file_size].
Proof.
  intros Hh Hfs -> Hb H0 H1 H2 response. subst response.
  rewrite (partial_content_run self range_spec content start end_ Hh Hfs Hb H0 H1 H2).
  pose proof (is_slice_read content start end_ H0 H1 H2) as Hs.
  split; [reflexivity|]. split; [|split].
  - unfold body_of. cbn [wfile body_block all_payload]. now rewrite app_nil_r.
  - unfold header_values, headers_of.
    cbn -[Py.str String.append firstn skipn].
    destruct Hs as [-> _]. reflexivity.
  - reflexivity.
Qed.

(** C2, amended.  On an existing regular file, a [Range] header that
    begins with [bytes=] and has no ['-'] after it is answered 400. *)
Theorem range_without_dash_is_400 self range_spec content :
  Message_get "Range" (headers self) = Some ("bytes=" ++ range_spec) ->
  fs (translate_path (path self)) = Some (RegularFile content) ->
  Py.contains "-" range_spec = false ->
  status_of (serve (handle_range_request self)) = Some 400.
Proof. apply no_dash_run. Qed.

(** A bound that [int] cannot read is an exception, and the handler
    answers it as it answers every exception. *)
Lemma unreadable_bound_is_500 self range_spec content e :
  Message_get "Range" (headers self) = Some ("bytes=" ++ range_spec) ->
  fs (translate_path (path self)) = Some (RegularFile content) ->
  range_bounds range_spec (Z.of_nat (List.length content)) = Raise e ->
  Py.contains "-" range_spec = true ->
  status_of (serve (handle_range_request self)) = Some 500.
Proof. intros Hh Hfs Hb Hc. eapply bad_bound_run; eassumption. Qed.

(** C3.  When the bounds, after defaulting, have [start < 0] or
    [end >= file_size] or [start > end], the handler answers 416, and it
    has not opened, positioned or read the file: the only file-system
    calls are the three [os.path] questions. *)
Theorem unsatisfiable_range_is_416 self range_spec content file_size start end_ :
  Message_get "Range" (headers self) = Some ("bytes=" ++ range_spec) ->
  fs (translate_path (path self)) = Some (RegularFile content) ->
  file_size = Z.of_nat (List.length content) ->
  range_bounds range_spec file_size = Ok (start, end_) ->
  start < 0 \/ end_ >= file_size \/ start > end_ ->
  let response := serve (handle_range_request self) in
  status_of response = Some 416 /\
  existsb touches_content (fs_calls response) = false /\
  fs_calls response = [Exists (translate_path (path self));
                       IsFile (translate_path (path self));
                       GetSize (translate_path (path self))].
Proof.
  intros Hh Hfs -> Hb Hv response. subst response.
  destruct (unsatisfiable_run self range_spec content start end_ Hh Hfs Hb)
    as [Hs Hc].
  - repeat rewrite orb_true_iff. lia.
  - rewrite Hs, Hc. repeat split; reflexivity.
Qed.

(** C4, amended.  When the [Range] header begins with [bytes=] and the
    path leads to nothing or to something that is not a regular file,
    the handler answers 404, whatever follows [bytes=]. *)
Theorem missing_file_is_404 self range_spec :
  Message_get "Range" (headers self) = Some ("bytes=" ++ range_spec) ->
  (forall content, fs (translate_path (path self)) <> Some (RegularFile content)) ->
  status_of (serve (handle_range_request self)) = Some 404.
Proof. apply not_found_run. Qed.

(** C5, amended.  [Range: bytes=0-] on a file of [N >= 1] bytes is
    answered 206 with the whole file as body and
    [Content-Range: bytes 0-<N-1>/<N>]. *)
Theorem open_ended_range_serves_whole_file self content N :
  Message_get "Range" (headers self) = Some "bytes=0-" ->
  fs (translate_path (path self)) = Some (RegularFile content) ->
  N = Z.of_nat (List.length content) ->
  1 <= N ->
  let response := serve (handle_range_request self) in
  status_of response = Some 206 /\
  body_of response = content /\
  header_values "Content-Range" response =
    ["bytes 0-" ++ Py.str (N - 1) ++ "/" ++ Py.str N].
Proof.
  intros Hh Hfs -> HN response. subst response.
  rewrite (partial_content_run self "0-" content 0
             (Z.of_nat (List.length content) - 1) Hh Hfs)
    by (reflexivity || lia).
  split; [reflexivity|]. split; [|reflexivity].
  unfold body_of. cbn [wfile body_block all_payload]. rewrite app_nil_r.
  cbn [Z.to_nat skipn].
  replace (Z.to_nat (Z.of_nat (List.length content) - 1 - 0 + 1))
    with (List.length content) by lia.
  apply firstn_all.
Qed.

Lemma range_bounds_empty_start k file_size :
  0 <= k -> range_bounds ("-" ++ Py.str k) file_size = Ok (0, k).
Proof.
  intros Hk. unfold range_bounds.
  change (Py.split1 "-" ("-" ++ Py.str k)) with [EmptyString; Py.str k].
  cbn [Py.truthy obind].
  assert (Py.truthy (Py.str k) = true) as ->.
  { unfold Py.str. replace (k <? 0) with false by (symmetry; lia).
    destruct (parse_str_nat k Hk) as (c & r & -> & _). reflexivity. }
  unfold int. now rewrite int_literal_str.
Qed.

(** C6.  [bytes=-<k>] is read as [start = 0], [end = k]: on a file of
    more than [k] bytes the answer is the [k + 1] bytes [0 .. k], which
    is not the last [k] bytes of the file.  With [k = 500] this is the
    501-byte slice [0 .. 500]. *)
Theorem empty_start_is_offset_zero self content file_size k :
  Message_get "Range" (headers self) = Some ("bytes=-" ++ Py.str k) ->
  fs (translate_path (path self)) = Some (RegularFile content) ->
  file_size = Z.of_nat (List.length content) ->
  0 <= k -> k < file_size ->
  range_bounds ("-" ++ Py.str k) file_size = Ok (0, k) /\
  let response := serve (handle_range_request self) in
  status_of response = Some 206 /\
  is_slice (body_of response) content 0 k /\
  Z.of_nat (List.length (body_of response)) = k + 1 /\
  body_of response <> skipn (List.length content - Z.to_nat k) content /\
  header_values "Content-Range" response =
    ["bytes 0-" ++ Py.str k ++ "/" ++ Py.str file_size].
Proof.
  intros Hh Hfs -> Hk Hlt.
  pose proof (range_bounds_empty_start k (Z.of_nat (List.length content)) Hk) as Hb.
  split; [assumption|]. intros response. subst response.
  change ("bytes=-" ++ Py.str k) with ("bytes=" ++ ("-" ++ Py.str k)) in Hh.
  rewrite (partial_content_run self _ content 0 k Hh Hfs Hb) by lia.
  assert (is_slice (firstn (Z.to_nat (k - 0 + 1)) (skipn (Z.to_nat 0) content))
                   content 0 k) as Hs by (apply is_slice_read; lia).
  unfold body_of. cbn [wfile body_block all_payload]. rewrite app_nil_r.
  split; [reflexivity|]. split; [assumption|]. split; [|split].
  - destruct Hs as [-> _]. lia.
  - intros E. apply (f_equal (@List.length byte)) in E.
    destruct Hs as [Hl _]. rewrite length_skipn in E. lia.
  - reflexivity.
Qed.

(** C7, amended.  Every OPTIONS request, whatever its path, is answered
    200 with no body; the headers are [Server] and [Date], which
    [send_response] sends, and then the three CORS headers, nothing
    else. *)
Theorem options_response self :
  let response := serve (do_OPTIONS self) in
  status_of response = Some 200 /\
  body_of response = [] /\
  headers_of response =
    ("Server", version_string) :: ("Date", date_time_string) :: cors_headers.
Proof. repeat split. Qed.

(** C8.  Every 206 answer carries each of the three CORS headers twice:
    the set [handle_range_request] sends itself, followed by the set
    [end_headers] adds. *)
Theorem partial_content_repeats_cors self :
  status_of (serve (handle_range_request self)) = Some 206 ->
  let response := serve (handle_range_request self) in
  header_values "Access-Control-Allow-Origin" response = ["*"; "*"] /\
  header_values "Access-Control-Allow-Methods" response =
    ["GET, POST, OPTIONS"; "GET, POST, OPTIONS"] /\
  header_values "Access-Control-Allow-Headers" response =
    ["Content-Type, Range"; "Content-Type, Range"] /\
  exists before,
    headers_of response = (before ++ cors_headers ++ cors_headers)%list /\
    forall name, In name (map fst cors_headers) -> values_of name before = [].
Proof.
  intros H response. subst response.
  destruct (status_206_inv self H)
    as (range_spec & content & start & end_ & Hh & Hfs & Hb & Hr & Hu).
  rewrite (partial_content_run self range_spec content start end_ Hh Hfs Hb)
    by lia.
  repeat split.
  exists [("Server", version_string); ("Date", date_time_string);
          ("Content-Type", "application/octet-stream");
          ("Content-Length",
           Py.str (Z.of_nat (List.length
                     (firstn (Z.to_nat (end_ - start + 1))
                             (skipn (Z.to_nat start) content)))));
          ("Content-Range",
           "bytes " ++ Py.str start ++ "-" ++ Py.str end_ ++ "/"
                    ++ Py.str (Z.of_nat (List.length content)));
          ("Accept-Ranges", "bytes")].
  split.
  - reflexivity.
  - intros name [<-|[<-|[<-|[]]]]; reflexivity.
Qed.

(** C9.  The test [start < 0] of the validation never holds: [start_str]
    ends before the first ['-'], so a bound that [int] can read, or the
    default 0, is not negative.  A 416 therefore comes from
    [end >= file_size] or [start > end], and from nothing else. *)
Theorem negative_start_unreachable :
  (forall range_spec file_size start end_,
     range_bounds range_spec file_size = Ok (start, end_) ->
     (start <? 0) = false) /\
  (forall self,
     status_of (serve (handle_range_request self)) = Some 416 ->
     exists range_spec content start end_,
       Message_get "Range" (headers self) = Some ("bytes=" ++ range_spec) /\
       fs (translate_path (path self)) = Some (RegularFile content) /\
       range_bounds range_spec (Z.of_nat (List.length content)) = Ok (start, end_) /\
       0 <= start /\
       (end_ >= Z.of_nat (List.length content) \/ start > end_)).
Proof.
  split.
  - intros range_spec file_size start end_ Hb.
    apply range_bounds_start_nonneg in Hb. lia.
  - intros self H.
    destruct (status_416_inv self H)
      as (range_spec & content & start & end_ & Hh & Hfs & Hb & Hv).
    exists range_spec, content, start, end_.
    pose proof (range_bounds_start_nonneg _ _ _ _ Hb).
    repeat rewrite orb_true_iff in Hv.
    repeat split; try assumption. lia.
Qed.

(** C10.  A [Range] header that is present and empty is not handled as a
    range request: [do_GET] tests the header for truth, and hands the
    request to the [do_GET] of the base class, exactly as it does for a
    request without the header.  The 400 that [handle_range_request]
    has for such a header is not sent. *)
Theorem empty_range_header_is_static self :
  Message_get "Range" (headers self) = Some "" ->
  do_GET self = SimpleHTTPRequestHandler_do_GET end_headers self /\
  (forall other, Message_get "Range" (headers other) = None ->
     do_GET other = SimpleHTTPRequestHandler_do_GET end_headers other) /\
  status_of (serve (handle_range_request self)) = Some 400.
Proof.
  intros Hh. split; [|split].
  - unfold do_GET. now rewrite Hh.
  - intros other Ho. unfold do_GET. now rewrite Ho.
  - now destruct (other_unit_run self "" Hh eq_refl).
Qed.

(** ** More about the handler *)

Lemma send_error_page_run self code message st :
  (200 <=? code) && negb ((code =? 204) || (code =? 205) || (code =? 304)) = true ->
  send_error self code message st =
  (Ok tt, {| wfile := wfile st ++ error_response self code message;
             fs_calls := fs_calls st;
             stdout := stdout st |}).
Proof.
  intros H.
  unfold send_error, send_response, send_response_only, send_header,
    end_headers, BaseHTTPRequestHandler_end_headers, wfile_write, bind, emit, ret,
    error_response.
  rewrite H.
  destruct (negb (String.eqb (command self) "HEAD")
            && negb (Nat.eqb (List.length (error_page code message)) 0));
    cbn -[Py.str]; repeat rewrite <- app_assoc; reflexivity.
Qed.

Ltac finish_page :=
  rewrite send_error_page_run by reflexivity;
  cbn -[Py.str error_response String.append].

(** Whatever the request, the handler returns normally, and it has gone
    one of the eight ways. *)
Lemma handle_range_request_served self :
  exists st,
    handle_range_request self initial_state = (Ok tt, st) /\ served self st.
Proof.
  destruct (Message_get "Range" (headers self)) as [h|] eqn:Hh.
  2:{ eexists. split; [|apply served_no_header; assumption].
      run_handler. rewrite Hh. run_handler. finish_page. reflexivity. }
  destruct (Py.startswith "bytes=" h) eqn:Hp.
  2:{ eexists. split; [|eapply served_other_unit; eassumption].
      run_handler. rewrite Hh. run_handler. rewrite Hp. run_handler.
      finish_page. reflexivity. }
  apply startswith_bytes in Hp. set (range_spec := Py.slice_from 6 h) in *.
  rewrite Hp in Hh. clear Hp.
  destruct (fs (translate_path (path self))) as [[content|st_size]|] eqn:Hfs.
  3:{ eexists. split; [|eapply served_missing; eassumption].
      run_handler. rewrite Hh. run_handler.
      rewrite ?startswith_prefix, ?slice_from_prefix. run_handler.
      rewrite Hfs. run_handler. finish_page. reflexivity. }
  2:{ eexists. split; [|eapply served_not_regular; eassumption].
      run_handler. rewrite Hh. run_handler.
      rewrite ?startswith_prefix, ?slice_from_prefix. run_handler.
      rewrite Hfs. run_handler. finish_page. reflexivity. }
  destruct (Py.contains "-" range_spec) eqn:Hc.
  2:{ eexists. split; [|eapply served_no_dash; eassumption].
      run_handler. rewrite Hh. run_handler.
      rewrite ?startswith_prefix, ?slice_from_prefix. run_handler.
      rewrite Hfs. run_handler. fold range_spec. rewrite Hc. run_handler.
      finish_page. reflexivity. }
  destruct (range_bounds range_spec (Z.of_nat (List.length content)))
    as [[start end_]|e] eqn:Hb.
  2:{ eexists. split; [|eapply served_bad_bound; eassumption].
      run_handler. rewrite Hh. run_handler.
      rewrite ?startswith_prefix, ?slice_from_prefix. run_handler.
      rewrite Hfs. run_handler. fold range_spec. rewrite Hc. run_handler.
      rewrite Hb. run_handler. finish_page. reflexivity. }
  pose proof (range_bounds_start_nonneg _ _ _ _ Hb) as Hs.
  destruct ((start <? 0) || (end_ >=? Z.of_nat (List.length content))
            || (start >? end_)) eqn:Hv.
  - eexists. split.
    2:{ eapply served_unsatisfiable; try eassumption.
        repeat rewrite orb_true_iff in Hv. lia. }
    run_handler. rewrite Hh. run_handler.
    rewrite ?startswith_prefix, ?slice_from_prefix. run_handler.
    rewrite Hfs. run_handler. fold range_spec. rewrite Hc. run_handler.
    rewrite Hb, Hv. run_handler. finish_page. reflexivity.
  - apply orb_false_elim in Hv. destruct Hv as [Hv H3].
    apply orb_false_elim in Hv. destruct Hv as [H1 H2].
    eexists. split.
    2:{ eapply served_satisfiable; try eassumption; lia. }
    pose proof (partial_content_run self range_spec content start end_ Hh Hfs Hb)
      as Hrun.
    unfold serve in Hrun. cbv zeta in Hrun.
    specialize (Hrun ltac:(lia) ltac:(lia) ltac:(lia)).
    destruct (handle_range_request self initial_state) as [o st] eqn:E.
    simpl in Hrun. subst st.
    assert (o = Ok tt) as ->.
    { revert E. run_handler. rewrite Hh. run_handler.
      rewrite ?startswith_prefix, ?slice_from_prefix. run_handler.
      rewrite Hfs. run_handler. fold range_spec. rewrite Hc. run_handler.
      rewrite Hb.
      replace ((start <? 0) || (end_ >=? Z.of_nat (List.length content))
               || (start >? end_)) with false
        by (symmetry; repeat apply orb_false_intro; lia).
      run_handler. rewrite H1. run_handler. now intros [= <- _]. }
    reflexivity.
Qed.

Lemma served_serve self : served self (serve (handle_range_request self)).
Proof.
  destruct (handle_range_request_served self) as (st & E & H).
  unfold serve. now rewrite E.
Qed.

Ltac by_cases self response :=
  let H := fresh "H" in
  intros response; assert (H := served_serve self);
  fold response in H; clearbody response; destruct H;
  unfold failure_state, error_state, error_response, partial_content_response,
    stat_calls in *.



(** X2.  The status is always one of 206, 400, 404, 416 and 500. *)
Theorem status_is_one_of_five self :
  exists code,
    status_of (serve (handle_range_request self)) = Some code /\
    In code [206; 400; 404; 416; 500].
Proof.
  assert (H := served_serve self).
  destruct H; eexists; (split; [reflexivity|]); simpl; auto 10.
Qed.

(** X3.  Every answer carries the three CORS headers, also the error
    answers, where [send_error] ends the headers through the overridden
    [end_headers]; every answer but the 206 carries each of them once. *)
Theorem every_response_carries_cors self :
  let response := serve (handle_range_request self) in
  (forall kv, In kv cors_headers -> In kv (headers_of response)) /\
  (status_of response <> Some 206 ->
   forall kv, In kv cors_headers -> header_values (fst kv) response = [snd kv]).
Proof.
  by_cases self response.
  1-7: split; [|intros _]; intros kv [<-|[<-|[<-|[]]]];
       unfold headers_of, header_values, headers_of;
       cbn -[Py.str String.append]; auto 12.
  split.
  - intros kv [<-|[<-|[<-|[]]]]; unfold headers_of;
      cbn -[Py.str String.append firstn skipn]; auto 12.
  - intros Hne. now destruct Hne.
Qed.

(** X4.  For a GET request, [Content-Length] is the length of the body
    that follows, on every way through the handler. *)
Theorem content_length_is_body_length self :
  command self = "GET" ->
  let response := serve (handle_range_request self) in
  header_values "Content-Length" response =
    [Py.str (Z.of_nat (List.length (body_of response)))].
Proof.
  intros Hc. by_cases self response.
  1-7: unfold header_values, headers_of, body_of;
       cbn -[Py.str String.append]; rewrite Hc; cbn -[Py.str String.append];
       match goal with
       | |- context [Nat.eqb ?n 0] => destruct n eqn:En
       end; cbn -[Py.str String.append];
       [reflexivity | rewrite app_nil_r, En; reflexivity].
  unfold header_values, headers_of, body_of.
  cbn -[Py.str String.append firstn skipn]. now rewrite app_nil_r.
Qed.

(** X5.  Every file-system call is about the translated request path,
    and the file is opened, positioned and read exactly when the answer
    is 206. *)
Theorem file_system_discipline self :
  let response := serve (handle_range_request self) in
  (forall c, In c (fs_calls response) -> call_path c = translate_path (path self)) /\
  (existsb touches_content (fs_calls response) = true <->
   status_of response = Some 206).
Proof.
  by_cases self response; (split; [|split; [discriminate || reflexivity
                                          | discriminate || reflexivity]]);
    cbn [fs_calls app]; intros c Hin;
    repeat (destruct Hin as [<-|Hin]; [reflexivity|]); destruct Hin.
Qed.


(** X7.  A [Range] header with another unit is turned down before the
    path is looked at: 400 without one file-system call, whether or not
    the file exists. *)
Theorem other_unit_is_rejected_unseen self range_header :
  Message_get "Range" (headers self) = Some range_header ->
  Py.startswith "bytes=" range_header = false ->
  let response := serve (handle_range_request self) in
  status_of response = Some 400 /\
  fs_calls response = [] /\
  stdout response = [].
Proof.
  intros Hh Hp. by_cases self response;
    try (rewrite Hh in *; discriminate);
    try (repeat split; reflexivity).
  all: match goal with
       | E : Message_get _ _ = Some ("bytes=" ++ _) |- _ =>
           let Heq := fresh "Heq" in
           rewrite Hh in E; injection E as Heq; rewrite Heq in Hp;
           cbn in Hp; discriminate
       end.
Qed.

(** *** What [int] reads and what [str] writes *)

Lemma contains_app c a b :
  Py.contains c (a ++ b) = Py.contains c a || Py.contains c b.
Proof.
  induction a as [|x a IH]; simpl; [reflexivity|].
  now rewrite IH, orb_assoc.
Qed.

Lemma cut_app c h t :
  Py.contains c h = false -> Py.cut c (h ++ String c t) = Some (h, t).
Proof.
  induction h as [|x h IH]; cbn [Py.contains Py.cut String.append].
  - intros _. now rewrite Ascii.eqb_refl.
  - intros H. apply orb_false_elim in H. destruct H as [Hx Hh].
    now rewrite Hx, (IH Hh).
Qed.

Lemma skip_space_split c s :
  Py.contains c s = true ->
  Py.is_space c = true \/ Py.contains c (Py.skip_space s) = true.
Proof.
  induction s as [|a s IH]; cbn [Py.contains Py.skip_space]; [discriminate|].
  destruct (Py.is_space a) eqn:Ha.
  - destruct (Ascii.eqb_spec a c) as [<-|_]; [now left|]. exact IH.
  - intros H. right. exact H.
Qed.

Lemma only_space_chars c s :
  Py.only_space s = true -> Py.contains c s = true -> Py.is_space c = true.
Proof.
  unfold Py.only_space. intros Ho Hc.
  destruct (skip_space_split c s Hc) as [H|H]; [assumption|].
  destruct (Py.skip_space s); [discriminate H | discriminate Ho].
Qed.

Lemma scan_digits_chars c s : forall acc v rest,
  Py.scan_digits acc s = Some (v, rest) ->
  Py.contains c s = true ->
  Py.is_digit c = true \/ Ascii.eqb c "_" = true \/ Py.contains c rest = true.
Proof.
  induction s as [s IH] using
    (well_founded_induction (well_founded_ltof _ String.length)).
  destruct s as [|a s]; intros acc v rest; cbn [Py.scan_digits Py.contains].
  - discriminate.
  - destruct (Py.is_digit a) eqn:Ha.
    + intros Hs Hc. destruct (Ascii.eqb_spec a c) as [<-|_]; [now left|].
      eapply (IH s); [unfold ltof; simpl; lia | exact Hs | exact Hc].
    + destruct (Ascii.eqb_spec a "_") as [->|Hu].
      * destruct s as [|d s]; [discriminate|].
        destruct (Py.is_digit d) eqn:Hd; [|discriminate].
        intros Hs Hc. cbn [Py.contains] in Hc.
        destruct (Ascii.eqb_spec "_"%char c) as [<-|_]; [now right; left|].
        destruct (Ascii.eqb_spec d c) as [<-|_]; [now left|].
        eapply (IH s); [unfold ltof; simpl; lia | exact Hs | exact Hc].
      * intros [= _ <-] Hc. right. right. exact Hc.
Qed.

Lemma parse_nat_chars c s v rest :
  Py.parse_nat s = Some (v, rest) ->
  Py.contains c s = true ->
  Py.is_digit c = true \/ Ascii.eqb c "_" = true \/ Py.contains c rest = true.
Proof.
  destruct s as [|a s]; cbn [Py.parse_nat Py.contains]; [discriminate|].
  destruct (Py.is_digit a) eqn:Ha; [|discriminate].
  intros Hs Hc. destruct (Ascii.eqb_spec a c) as [<-|_]; [now left|].
  eapply scan_digits_chars; eassumption.
Qed.

(** A string that [int] reads is made of digits, blanks, signs and
    underscores only. *)
Lemma int_literal_chars c s n :
  Py.int_literal s = Some n -> Py.contains c s = true -> int_char c = true.
Proof.
  assert (forall digits v rest,
            Py.parse_nat digits = Some (v, rest) -> Py.only_space rest = true ->
            Py.contains c digits = true -> int_char c = true) as Hd.
  { intros digits v rest Hp Ho Hc. unfold int_char.
    destruct (parse_nat_chars c digits v rest Hp Hc) as [H|[H|H]].
    - now rewrite H.
    - rewrite H. now rewrite !orb_true_r.
    - rewrite (only_space_chars c rest Ho H). now rewrite orb_true_r. }
  intros Hi Hc. unfold Py.int_literal in Hi.
  destruct (skip_space_split c s Hc) as [H|H].
  { unfold int_char. rewrite H. now rewrite orb_true_r. }
  destruct (Py.skip_space s) as [|a r]; [discriminate H|].
  unfold Py.parse_sign in Hi. cbn [Py.contains] in H.
  destruct (Ascii.eqb_spec a "+") as [->|Hplus].
  - destruct (Py.parse_nat r) as [[v rest]|] eqn:P; [|discriminate].
    destruct (Py.only_space rest) eqn:O; [|discriminate].
    destruct (Ascii.eqb_spec "+"%char c) as [<-|_]; [reflexivity|].
    eapply Hd; eassumption.
  - destruct (Ascii.eqb_spec a "-") as [->|Hminus].
    + destruct (Py.parse_nat r) as [[v rest]|] eqn:P; [|discriminate].
      destruct (Py.only_space rest) eqn:O; [|discriminate].
      destruct (Ascii.eqb_spec "-"%char c) as [<-|_]; [reflexivity|].
      eapply Hd; eassumption.
    + destruct (Py.parse_nat (String a r)) as [[v rest]|] eqn:P; [|discriminate].
      destruct (Py.only_space rest) eqn:O; [|discriminate].
      eapply Hd; try eassumption.
Qed.

Lemma decimal_no_dash fuel : forall n tail,
  Py.contains "-" tail = false ->
  Py.contains "-" (Py.decimal fuel n tail) = false.
Proof.
  induction fuel as [|fuel IH]; intros n tail Ht; cbn [Py.decimal]; [assumption|].
  cbv zeta.
  assert (Py.contains "-" (String (Py.digit_char (n mod 10)) tail) = false) as H.
  { cbn [Py.contains]. rewrite Ht.
    assert (0 <= n mod 10 <= 9) as Hd by (pose proof (Z.mod_pos_bound n 10); lia).
    destruct (digit_char_spec _ Hd) as [Dd _].
    destruct (digit_not_sign _ Dd) as [_ ->]. reflexivity. }
  destruct (n <? 10); [assumption | now apply IH].
Qed.

Lemma str_no_dash n : 0 <= n -> Py.contains "-" (Py.str n) = false.
Proof.
  intros Hn. unfold Py.str. replace (n <? 0) with false by (symmetry; lia).
  now apply decimal_no_dash.
Qed.

Lemma truthy_str n : 0 <= n -> Py.truthy (Py.str n) = true.
Proof.
  intros Hn. unfold Py.str. replace (n <? 0) with false by (symmetry; lia).
  destruct (parse_str_nat n Hn) as (c & r & -> & _). reflexivity.
Qed.

(** The two bounds written by [str] and joined by a dash are read back. *)
Lemma range_bounds_canonical start end_ file_size :
  0 <= start -> 0 <= end_ ->
  range_bounds (Py.str start ++ "-" ++ Py.str end_) file_size = Ok (start, end_).
Proof.
  intros Hs He. unfold range_bounds, Py.split1.
  change ("-" ++ Py.str end_) with (String "-" (Py.str end_)).
  rewrite cut_app by now apply str_no_dash.
  rewrite !truthy_str by assumption.
  unfold int. now rewrite !int_literal_str.
Qed.

Lemma firstn_chunks (l : list byte) : forall n m,
  (firstn n l ++ firstn m (skipn n l) = firstn (n + m) l)%list.
Proof.
  induction l as [|x l IH]; intros n m.
  - now rewrite !firstn_nil, skipn_nil, firstn_nil.
  - destruct n as [|n]; [reflexivity|].
    cbn [firstn skipn Nat.add app]. now rewrite IH.
Qed.

(** X8.  On an existing regular file, a [bytes=] header is answered 206
    exactly when both bounds can be read and [start <= end < file_size]. *)
Theorem partial_content_iff_satisfiable self range_spec content :
  Message_get "Range" (headers self) = Some ("bytes=" ++ range_spec) ->
  fs (translate_path (path self)) = Some (RegularFile content) ->
  status_of (serve (handle_range_request self)) = Some 206 <->
  exists start end_,
    range_bounds range_spec (Z.of_nat (List.length content)) = Ok (start, end_) /\
    start <= end_ /\ end_ < Z.of_nat (List.length content).
Proof.
  intros Hh Hfs. split.
  - intros H. destruct (status_206_inv self H)
      as (spec' & content' & start & end_ & Hh' & Hfs' & Hb & Hr & Hu).
    rewrite Hh in Hh'. injection Hh' as Hs.
    rewrite Hfs in Hfs'. injection Hfs' as <-. subst spec'.
    exists start, end_. repeat split; [assumption | lia | lia].
  - intros (start & end_ & Hb & H1 & H2).
    pose proof (range_bounds_start_nonneg _ _ _ _ Hb) as H0.
    rewrite (partial_content_run self range_spec content start end_ Hh Hfs Hb)
      by lia.
    reflexivity.
Qed.

(** X9.  A character that no integer literal contains, such as the comma
    of a list of ranges, makes the request a 500: the bound it stands in
    is not empty and [int] raises on it. *)
Theorem foreign_character_is_500 self range_spec content c :
  Message_get "Range" (headers self) = Some ("bytes=" ++ range_spec) ->
  fs (translate_path (path self)) = Some (RegularFile content) ->
  Py.contains "-" range_spec = true ->
  Py.contains c range_spec = true ->
  int_char c = false ->
  status_of (serve (handle_range_request self)) = Some 500.
Proof.
  intros Hh Hfs Hd Hc Hi.
  assert (forall s, Py.contains c s = true ->
                    Py.truthy s = true /\ exists e, int s = Raise e) as Hbad.
  { intros s Hs. split; [destruct s; [discriminate Hs | reflexivity]|].
    unfold int. destruct (Py.int_literal s) as [n|] eqn:E; [|eauto].
    rewrite (int_literal_chars c s n E Hs) in Hi. discriminate. }
  assert (exists e, range_bounds range_spec (Z.of_nat (List.length content))
                    = Raise e) as [e He].
  { unfold range_bounds.
    destruct (split1_cases "-" range_spec) as [(a & b & Hs) | Hs].
    2:{ unfold Py.split1 in Hs. destruct (contains_cut _ _ Hd) as (h & t & Hcut).
        rewrite Hcut in Hs. discriminate. }
    rewrite Hs. apply split1_two in Hs. destruct Hs as (_ & _ & ->).
    rewrite contains_app in Hc. cbn [Py.contains] in Hc.
    assert (Ascii.eqb "-" c = false) as Hm.
    { destruct (Ascii.eqb_spec "-"%char c) as [<-|]; [discriminate Hi | reflexivity]. }
    rewrite Hm in Hc. cbn [orb] in Hc.
    destruct (Py.contains c a) eqn:Ha.
    - destruct (Hbad a Ha) as [-> [e ->]]. cbn [obind]. eexists. reflexivity.
    - cbn [orb] in Hc. destruct (Hbad b Hc) as [-> [e ->]].
      destruct (if Py.truthy a then int a else Ok 0); cbn [obind];
        eexists; reflexivity. }
  eapply bad_bound_run; eassumption.
Qed.

(** X10.  No range of an empty file is satisfiable: the answer is never
    206, and it is 416 whenever the bounds can be read. *)
Theorem empty_file_has_no_satisfiable_range self :
  fs (translate_path (path self)) = Some (RegularFile []) ->
  status_of (serve (handle_range_request self)) <> Some 206 /\
  forall range_spec start end_,
    Message_get "Range" (headers self) = Some ("bytes=" ++ range_spec) ->
    range_bounds range_spec 0 = Ok (start, end_) ->
    status_of (serve (handle_range_request self)) = Some 416.
Proof.
  intros Hfs. split.
  - intros H. destruct (status_206_inv self H)
      as (spec' & content' & start & end_ & _ & Hfs' & _ & Hr & Hu).
    rewrite Hfs in Hfs'. injection Hfs' as <-. simpl in Hu. lia.
  - intros range_spec start end_ Hh Hb.
    pose proof (range_bounds_start_nonneg _ _ _ _ Hb) as H0.
    apply (unsatisfiable_run self range_spec [] start end_ Hh Hfs Hb).
    cbn [List.length Z.of_nat]. repeat rewrite orb_true_iff. lia.
Qed.

(** X11.  Asking again for the range that [Content-Range] reports gives
    the same answer, byte for byte: the bounds written by [str] are read
    back by [int] as they were. *)
Theorem canonical_range_gives_same_response
    self other range_spec content start end_ :
  Message_get "Range" (headers self) = Some ("bytes=" ++ range_spec) ->
  fs (translate_path (path self)) = Some (RegularFile content) ->
  range_bounds range_spec (Z.of_nat (List.length content)) = Ok (start, end_) ->
  start <= end_ -> end_ <= Z.of_nat (List.length content) - 1 ->
  path other = path self ->
  Message_get "Range" (headers other)
    = Some ("bytes=" ++ Py.str start ++ "-" ++ Py.str end_) ->
  serve (handle_range_request other) = serve (handle_range_request self).
Proof.
  intros Hh Hfs Hb H1 H2 Hp Ho.
  pose proof (range_bounds_start_nonneg _ _ _ _ Hb) as H0.
  rewrite (partial_content_run self range_spec content start end_ Hh Hfs Hb)
    by assumption.
  rewrite <- Hp in Hfs.
  rewrite (partial_content_run other _ content start end_ Ho Hfs) by
    (assumption || apply range_bounds_canonical; lia).
  now rewrite Hp.
Qed.

(** X12.  Two ranges that follow one another give, one body after the
    other, the body of the range that spans both. *)
Theorem adjacent_ranges_concatenate
    first second whole spec1 spec2 spec3 content a b c :
  Message_get "Range" (headers first) = Some ("bytes=" ++ spec1) ->
  Message_get "Range" (headers second) = Some ("bytes=" ++ spec2) ->
  Message_get "Range" (headers whole) = Some ("bytes=" ++ spec3) ->
  fs (translate_path (path first)) = Some (RegularFile content) ->
  fs (translate_path (path second)) = Some (RegularFile content) ->
  fs (translate_path (path whole)) = Some (RegularFile content) ->
  range_bounds spec1 (Z.of_nat (List.length content)) = Ok (a, b) ->
  range_bounds spec2 (Z.of_nat (List.length content)) = Ok (b + 1, c) ->
  range_bounds spec3 (Z.of_nat (List.length content)) = Ok (a, c) ->
  a <= b -> b < c -> c <= Z.of_nat (List.length content) - 1 ->
  (body_of (serve (handle_range_request first))
   ++ body_of (serve (handle_range_request second))
   = body_of (serve (handle_range_request whole)))%list.
Proof.
  intros Hh1 Hh2 Hh3 Hf1 Hf2 Hf3 Hb1 Hb2 Hb3 Hab Hbc Hc.
  pose proof (range_bounds_start_nonneg _ _ _ _ Hb1) as H0.
  rewrite (partial_content_run first spec1 content a b Hh1 Hf1 Hb1) by lia.
  rewrite (partial_content_run second spec2 content (b + 1) c Hh2 Hf2 Hb2) by lia.
  rewrite (partial_content_run whole spec3 content a c Hh3 Hf3 Hb3) by lia.
  unfold body_of. cbn [wfile body_block all_payload]. rewrite !app_nil_r.
  replace (Z.to_nat (b + 1)) with (Z.to_nat (b - a + 1) + Z.to_nat a)%nat by lia.
  rewrite <- skipn_skipn.
  replace (Z.to_nat (c - a + 1))
    with (Z.to_nat (b - a + 1) + Z.to_nat (c - (b + 1) + 1))%nat by lia.
  apply firstn_chunks.
Qed.

(** X13.  With both bounds left out, [Range: bytes=-], the whole of a
    file that is not empty is served as a 206. *)
Theorem bare_dash_serves_whole_file self content :
  Message_get "Range" (headers self) = Some "bytes=-" ->
  fs (translate_path (path self)) = Some (RegularFile content) ->
  content <> [] ->
  let response := serve (handle_range_request self) in
  status_of response = Some 206 /\
  body_of response = content /\
  header_values "Content-Range" response =
    ["bytes 0-" ++ Py.str (Z.of_nat (List.length content) - 1) ++ "/"
                ++ Py.str (Z.of_nat (List.length content))].
Proof.
  intros Hh Hfs Hne response. subst response.
  assert (1 <= Z.of_nat (List.length content)) as HN
    by (destruct content; [contradiction | simpl; lia]).
  rewrite (partial_content_run self "-" content 0
             (Z.of_nat (List.length content) - 1) Hh Hfs)
    by (reflexivity || lia).
  split; [reflexivity|]. split; [|reflexivity].
  unfold body_of. cbn [wfile body_block all_payload]. rewrite app_nil_r.
  cbn [Z.to_nat skipn].
  replace (Z.to_nat (Z.of_nat (List.length content) - 1 - 0 + 1))
    with (List.length content) by lia.
  apply firstn_all.
Qed.

(** *** The handler only appends *)















(** X15.  [Content-Range] and [Accept-Ranges] are sent with the 206 and
    with nothing else: a 416 does not tell the size of the file. *)
Theorem only_partial_content_has_range_headers self :
  let response := serve (handle_range_request self) in
  status_of response <> Some 206 ->
  header_values "Content-Range" response = [] /\
  header_values "Accept-Ranges" response = [].
Proof.
  by_cases self response; intros Hne;
    try (split; reflexivity).
  now destruct Hne.
Qed.

End Handler.

(** ** A file that grows *)

Section Growth.

Variable translate_path : string -> string.
Variables fs fs' : string -> option node.
Variables version_string date_time_string : string.
Variable responses : Z -> string.
Variable error_page : Z -> string -> list byte.
Variable repr : string -> string.

Lemma firstn_skipn_app (l more : list byte) k n :
  (k + n <= List.length l)%nat ->
  firstn n (skipn k (l ++ more)) = firstn n (skipn k l).
Proof.
  intros H. rewrite skipn_app.
  replace (k - List.length l)%nat with 0%nat by lia. cbn [skipn].
  rewrite firstn_app, length_skipn.
  replace (n - (List.length l - k))%nat with 0%nat by lia.
  cbn [firstn]. now rewrite app_nil_r.
Qed.

(** X16.  Bytes that were there stay as they are served: when the file
    has grown at its end, a range that lies in the old content and reads
    to the same bounds is answered with the same body. *)
Theorem served_bytes_survive_growth self range_spec content more start end_ :
  Message_get "Range" (headers self) = Some ("bytes=" ++ range_spec) ->
  fs (translate_path (path self)) = Some (RegularFile content) ->
  fs' (translate_path (path self)) = Some (RegularFile (content ++ more)) ->
  range_bounds repr range_spec (Z.of_nat (List.length content))
    = Ok (start, end_) ->
  range_bounds repr range_spec (Z.of_nat (List.length (content ++ more)))
    = Ok (start, end_) ->
  start <= end_ -> end_ <= Z.of_nat (List.length content) - 1 ->
  let before :=
    serve (handle_range_request translate_path fs version_string
             date_time_string responses error_page repr self) in
  let after :=
    serve (handle_range_request translate_path fs' version_string
             date_time_string responses error_page repr self) in
  status_of before = Some 206 /\ status_of after = Some 206 /\
  body_of after = body_of before.
Proof.
  intros Hh Hfs Hfs' Hb Hb' H1 H2 before after. subst before after.
  pose proof (range_bounds_start_nonneg _ _ _ _ _ Hb) as H0.
  rewrite (partial_content_run translate_path fs version_string date_time_string
             responses error_page repr self range_spec content start end_
             Hh Hfs Hb) by lia.
  rewrite (partial_content_run translate_path fs' version_string date_time_string
             responses error_page repr self range_spec (content ++ more)
             start end_ Hh Hfs' Hb')
    by (rewrite ?length_app; lia).
  split; [reflexivity|]. split; [reflexivity|].
  unfold body_of. cbn [wfile body_block all_payload]. rewrite !app_nil_r.
  apply firstn_skipn_app. lia.
Qed.

End Growth.

(** ** The builtins and the handler at work *)

Local Notation demo_handle_range_request :=
  (handle_range_request demo_translate_path demo_fs demo_version demo_date
     demo_responses demo_error_page demo_repr).

Local Notation demo_do_GET :=
  (do_GET demo_translate_path demo_fs demo_version demo_date
     demo_responses demo_error_page demo_repr demo_base_do_GET).

Local Notation demo_do_OPTIONS :=
  (do_OPTIONS demo_version demo_date demo_responses).

Example int_plain : Py.int_literal "1023" = Some 1023.
Proof. reflexivity. Qed.

Example int_blank_sign_underscore : Py.int_literal " +1_000 " = Some 1000.
Proof. reflexivity. Qed.

Example int_negative : Py.int_literal "-5" = Some (-5).
Proof. reflexivity. Qed.

Example int_rejects :
  map Py.int_literal ["abc"; ""; "+"; "1__0"; "_1"; "1_"; "- 5"; "5-"; "0x10"]
  = [None; None; None; None; None; None; None; None; None].
Proof. reflexivity. Qed.

Example split1_first : Py.split1 "-" "5--3" = ["5"; "-3"].
Proof. reflexivity. Qed.

Example split1_none : Py.split1 "-" "500" = ["500"].
Proof. reflexivity. Qed.

Example str_samples :
  map Py.str [0; 7; 500; 1023; -42] = ["0"; "7"; "500"; "1023"; "-42"].
Proof. reflexivity. Qed.

Example serve_bytes_2_5 :
  serve (demo_handle_range_request (get_with_range "/logs/run.log" "bytes=2-5")) =
  {| wfile :=
       [StatusLine 206 "Partial Content";
        HeaderLine "Server" demo_version;
        HeaderLine "Date" demo_date;
        HeaderLine "Content-Type" "application/octet-stream";
        HeaderLine "Content-Length" "4";
        HeaderLine "Content-Range" "bytes 2-5/13";
        HeaderLine "Accept-Ranges" "bytes";
        HeaderLine "Access-Control-Allow-Origin" "*";
        HeaderLine "Access-Control-Allow-Methods" "GET, POST, OPTIONS";
        HeaderLine "Access-Control-Allow-Headers" "Content-Type, Range";
        HeaderLine "Access-Control-Allow-Origin" "*";
        HeaderLine "Access-Control-Allow-Methods" "GET, POST, OPTIONS";
        HeaderLine "Access-Control-Allow-Headers" "Content-Type, Range";
        BlankLine;
        Payload [x6f; x72; x6d; x69]];
     fs_calls :=
       [Exists "/srv/eval/logs/run.log"; IsFile "/srv/eval/logs/run.log";
        GetSize "/srv/eval/logs/run.log"; Open "/srv/eval/logs/run.log";
        Seek "/srv/eval/logs/run.log" 2; Read "/srv/eval/logs/run.log" 4];
     stdout := [] |}.
Proof. vm_compute. reflexivity. Qed.

Example serve_statuses :
  map (fun r => status_of (serve (demo_handle_range_request r)))
    [get_with_range "/logs/run.log" "bytes=0-12";
     get_with_range "/logs/run.log" "bytes=0-13";
     get_with_range "/logs/run.log" "bytes=5--3";
     get_with_range "/logs/run.log" "bytes=--5";
     get_with_range "/logs/run.log" "bytes= 2 - 5 ";
     get_with_range "/logs/run.log" "bytes=2-5,7-9";
     get_with_range "/logs/run.log" "items=0-10";
     get_with_range "/logs" "bytes=0-10";
     {| command := "GET"; path := "/logs/run.log"; headers := [] |}]
  = [Some 206; Some 416; Some 416; Some 416; Some 206; Some 500; Some 400;
     Some 404; Some 500].
Proof. vm_compute. reflexivity. Qed.

Example serve_unreadable_bound :
  let response :=
    serve (demo_handle_range_request (get_with_range "/logs/run.log" "bytes=abc-5")) in
  status_of response = Some 500 /\
  stdout response =
    ["Error handling range request: invalid literal for int() with base 10: 'abc'"] /\
  existsb touches_content (fs_calls response) = false.
Proof. vm_compute. repeat split. Qed.

(** ** The claims on the small installation *)

Lemma range_request_serves_slice_witness :
  let response :=
    serve (demo_handle_range_request (get_with_range "/logs/run.log" "bytes=2-5")) in
  status_of response = Some 206 /\
  is_slice (body_of response) demo_log 2 5 /\
  header_values "Content-Length" response = [Py.str (5 - 2 + 1)] /\
  header_values "Content-Range" response =
    ["bytes " ++ Py.str 2 ++ "-" ++ Py.str 5 ++ "/" ++ Py.str 13].
Proof.
  apply (range_request_serves_slice demo_translate_path demo_fs demo_version
           demo_date demo_responses demo_error_page demo_repr
           (get_with_range "/logs/run.log" "bytes=2-5") "2-5" demo_log 13 2 5);
    try reflexivity; lia.
Defined.

(** C2 as it was stated fails twice: a missing file comes first, and a
    bound that is no integer is an exception. *)
Lemma malformed_range_not_always_400 :
  (Py.contains "-" "500" = false /\
   status_of (serve (demo_handle_range_request
                       (get_with_range "/logs/missing.log" "bytes=500")))
   = Some 404) /\
  (Py.split1 "-" "abc-5" = ["abc"; "5"] /\ Py.int_literal "abc" = None /\
   status_of (serve (demo_handle_range_request
                       (get_with_range "/logs/run.log" "bytes=abc-5")))
   = Some 500).
Proof. vm_compute. repeat split. Qed.

Lemma range_without_dash_is_400_witness :
  status_of (serve (demo_handle_range_request
                      (get_with_range "/logs/run.log" "bytes=500")))
  = Some 400.
Proof.
  apply (range_without_dash_is_400 demo_translate_path demo_fs demo_version
           demo_date demo_responses demo_error_page demo_repr
           (get_with_range "/logs/run.log" "bytes=500") "500" demo_log);
    reflexivity.
Defined.

Lemma unsatisfiable_range_is_416_witness :
  let response :=
    serve (demo_handle_range_request (get_with_range "/logs/run.log" "bytes=20-30")) in
  status_of response = Some 416 /\
  existsb touches_content (fs_calls response) = false /\
  fs_calls response = [Exists "/srv/eval/logs/run.log";
                       IsFile "/srv/eval/logs/run.log";
                       GetSize "/srv/eval/logs/run.log"].
Proof.
  apply (unsatisfiable_range_is_416 demo_translate_path demo_fs demo_version
           demo_date demo_responses demo_error_page demo_repr
           (get_with_range "/logs/run.log" "bytes=20-30") "20-30" demo_log 13 20 30);
    try reflexivity; lia.
Defined.

(** C4 as it was stated fails on a header with another unit: the prefix
    is tested before the path. *)
Lemma missing_file_other_unit_is_400 :
  demo_fs (demo_translate_path "/logs/missing.log") = None /\
  status_of (serve (demo_handle_range_request
                      (get_with_range "/logs/missing.log" "items=0-10")))
  = Some 400.
Proof. vm_compute. split; reflexivity. Qed.

Lemma missing_file_is_404_witness :
  status_of (serve (demo_handle_range_request
                      (get_with_range "/logs/missing.log" "bytes=0-10")))
  = Some 404.
Proof.
  apply (missing_file_is_404 demo_translate_path demo_fs demo_version
           demo_date demo_responses demo_error_page demo_repr
           (get_with_range "/logs/missing.log" "bytes=0-10") "0-10");
    [reflexivity | intros content; vm_compute; discriminate].
Defined.

(** C5 as it was stated fails on the empty file: [end] defaults to [-1],
    below [start]. *)
Lemma open_ended_range_on_empty_file_is_416 :
  demo_fs (demo_translate_path "/logs/empty.log") = Some (RegularFile []) /\
  status_of (serve (demo_handle_range_request
                      (get_with_range "/logs/empty.log" "bytes=0-")))
  = Some 416.
Proof. vm_compute. split; reflexivity. Qed.

Lemma open_ended_range_serves_whole_file_witness :
  let response :=
    serve (demo_handle_range_request (get_with_range "/logs/run.log" "bytes=0-")) in
  status_of response = Some 206 /\
  body_of response = demo_log /\
  header_values "Content-Range" response =
    ["bytes 0-" ++ Py.str (13 - 1) ++ "/" ++ Py.str 13].
Proof.
  apply (open_ended_range_serves_whole_file demo_translate_path demo_fs
           demo_version demo_date demo_responses demo_error_page demo_repr
           (get_with_range "/logs/run.log" "bytes=0-") demo_log 13);
    try reflexivity; lia.
Defined.

Lemma empty_start_is_offset_zero_witness :
  range_bounds demo_repr ("-" ++ Py.str 500) 600 = Ok (0, 500) /\
  let response :=
    serve (demo_handle_range_request (get_with_range "/logs/big.bin" "bytes=-500")) in
  status_of response = Some 206 /\
  is_slice (body_of response) (repeat x2e 600) 0 500 /\
  Z.of_nat (List.length (body_of response)) = 500 + 1 /\
  body_of response <>
    skipn (List.length (repeat x2e 600) - Z.to_nat 500) (repeat x2e 600) /\
  header_values "Content-Range" response =
    ["bytes 0-" ++ Py.str 500 ++ "/" ++ Py.str 600].
Proof.
  apply (empty_start_is_offset_zero demo_translate_path demo_fs demo_version
           demo_date demo_responses demo_error_page demo_repr
           (get_with_range "/logs/big.bin" "bytes=-500") (repeat x2e 600) 600 500);
    try reflexivity; lia.
Defined.

(** C7 as it was stated fails: the three CORS headers are not the only
    ones. *)
Lemma options_headers_not_only_cors :
  headers_of (serve (demo_do_OPTIONS
                       {| command := "OPTIONS"; path := "/logs/run.log";
                          headers := [("Host", "localhost:8001")] |}))
  <> cors_headers.
Proof. vm_compute. discriminate. Qed.

Lemma partial_content_repeats_cors_witness :
  let response :=
    serve (demo_handle_range_request (get_with_range "/logs/run.log" "bytes=2-5")) in
  header_values "Access-Control-Allow-Origin" response = ["*"; "*"] /\
  header_values "Access-Control-Allow-Methods" response =
    ["GET, POST, OPTIONS"; "GET, POST, OPTIONS"] /\
  header_values "Access-Control-Allow-Headers" response =
    ["Content-Type, Range"; "Content-Type, Range"] /\
  exists before,
    headers_of response = (before ++ cors_headers ++ cors_headers)%list /\
    forall name, In name (map fst cors_headers) -> values_of name before = [].
Proof.
  apply (partial_content_repeats_cors demo_translate_path demo_fs demo_version
           demo_date demo_responses demo_error_page demo_repr
           (get_with_range "/logs/run.log" "bytes=2-5")).
  reflexivity.
Defined.

Lemma negative_start_unreachable_witness :
  (0 <? 0) = false /\
  exists range_spec content start end_,
    Message_get "Range" (headers (get_with_range "/logs/run.log" "bytes=20-30"))
      = Some ("bytes=" ++ range_spec) /\
    demo_fs (demo_translate_path "/logs/run.log") = Some (RegularFile content) /\
    range_bounds demo_repr range_spec (Z.of_nat (List.length content))
      = Ok (start, end_) /\
    0 <= start /\
    (end_ >= Z.of_nat (List.length content) \/ start > end_).
Proof.
  destruct (negative_start_unreachable demo_translate_path demo_fs demo_version
              demo_date demo_responses demo_error_page demo_repr) as [A B].
  split.
  - apply (A "-99" 13 0 99). reflexivity.
  - apply (B (get_with_range "/logs/run.log" "bytes=20-30")). reflexivity.
Defined.

Lemma empty_range_header_is_static_witness :
  let self := get_with_range "/logs/run.log" "" in
  demo_do_GET self = demo_base_do_GET end_headers self /\
  (forall other, Message_get "Range" (headers other) = None ->
     demo_do_GET other = demo_base_do_GET end_headers other) /\
  status_of (serve (demo_handle_range_request self)) = Some 400.
Proof.
  apply (empty_range_header_is_static demo_translate_path demo_fs demo_version
           demo_date demo_responses demo_error_page demo_repr demo_base_do_GET
           (get_with_range "/logs/run.log" "")).
  reflexivity.
Defined.

(** ** More facts on the small installation *)

Lemma every_response_carries_cors_witness :
  let response :=
    serve (demo_handle_range_request (get_with_range "/logs/run.log" "bytes=20-30")) in
  (forall kv, In kv cors_headers -> In kv (headers_of response)) /\
  (status_of response <> Some 206 ->
   forall kv, In kv cors_headers -> header_values (fst kv) response = [snd kv]).
Proof.
  exact (every_response_carries_cors demo_translate_path demo_fs demo_version
           demo_date demo_responses demo_error_page demo_repr
           (get_with_range "/logs/run.log" "bytes=20-30")).
Defined.

Lemma content_length_is_body_length_witness :
  let response :=
    serve (demo_handle_range_request (get_with_range "/logs/missing.log" "bytes=0-1")) in
  header_values "Content-Length" response =
    [Py.str (Z.of_nat (List.length (body_of response)))].
Proof.
  apply (content_length_is_body_length demo_translate_path demo_fs demo_version
           demo_date demo_responses demo_error_page demo_repr
           (get_with_range "/logs/missing.log" "bytes=0-1")).
  reflexivity.
Defined.

Lemma other_unit_is_rejected_unseen_witness :
  let response :=
    serve (demo_handle_range_request (get_with_range "/logs/run.log" "items=0-10")) in
  status_of response = Some 400 /\
  fs_calls response = [] /\
  stdout response = [].
Proof.
  apply (other_unit_is_rejected_unseen demo_translate_path demo_fs demo_version
           demo_date demo_responses demo_error_page demo_repr
           (get_with_range "/logs/run.log" "items=0-10") "items=0-10");
    reflexivity.
Defined.

Lemma partial_content_iff_satisfiable_witness :
  status_of (serve (demo_handle_range_request
                      (get_with_range "/logs/run.log" "bytes=2-5")))
  = Some 206 <->
  exists start end_,
    range_bounds demo_repr "2-5" (Z.of_nat (List.length demo_log))
      = Ok (start, end_) /\
    start <= end_ /\ end_ < Z.of_nat (List.length demo_log).
Proof.
  apply (partial_content_iff_satisfiable demo_translate_path demo_fs demo_version
           demo_date demo_responses demo_error_page demo_repr
           (get_with_range "/logs/run.log" "bytes=2-5") "2-5" demo_log);
    reflexivity.
Defined.

Lemma foreign_character_is_500_witness :
  status_of (serve (demo_handle_range_request
                      (get_with_range "/logs/run.log" "bytes=0-5,7-9")))
  = Some 500.
Proof.
  apply (foreign_character_is_500 demo_translate_path demo_fs demo_version
           demo_date demo_responses demo_error_page demo_repr
           (get_with_range "/logs/run.log" "bytes=0-5,7-9") "0-5,7-9" demo_log
           ","%char);
    reflexivity.
Defined.

Lemma empty_file_has_no_satisfiable_range_witness :
  let self := get_with_range "/logs/empty.log" "bytes=0-0" in
  status_of (serve (demo_handle_range_request self)) <> Some 206 /\
  forall range_spec start end_,
    Message_get "Range" (headers self) = Some ("bytes=" ++ range_spec) ->
    range_bounds demo_repr range_spec 0 = Ok (start, end_) ->
    status_of (serve (demo_handle_range_request self)) = Some 416.
Proof.
  apply (empty_file_has_no_satisfiable_range demo_translate_path demo_fs
           demo_version demo_date demo_responses demo_error_page demo_repr
           (get_with_range "/logs/empty.log" "bytes=0-0")).
  reflexivity.
Defined.

Lemma canonical_range_gives_same_response_witness :
  serve (demo_handle_range_request (get_with_range "/logs/run.log" "bytes=2-5"))
  = serve (demo_handle_range_request
             (get_with_range "/logs/run.log" "bytes= +2 -0_5 ")).
Proof.
  apply (canonical_range_gives_same_response demo_translate_path demo_fs
           demo_version demo_date demo_responses demo_error_page demo_repr
           (get_with_range "/logs/run.log" "bytes= +2 -0_5 ")
           (get_with_range "/logs/run.log" "bytes=2-5")
           " +2 -0_5 " demo_log 2 5);
    try reflexivity; simpl; lia.
Defined.

Lemma adjacent_ranges_concatenate_witness :
  (body_of (serve (demo_handle_range_request
                     (get_with_range "/logs/run.log" "bytes=0-4")))
   ++ body_of (serve (demo_handle_range_request
                        (get_with_range "/logs/run.log" "bytes=5-")))
   = body_of (serve (demo_handle_range_request
                       (get_with_range "/logs/run.log" "bytes=-12"))))%list.
Proof.
  apply (adjacent_ranges_concatenate demo_translate_path demo_fs
           demo_version demo_date demo_responses demo_error_page demo_repr
           (get_with_range "/logs/run.log" "bytes=0-4")
           (get_with_range "/logs/run.log" "bytes=5-")
           (get_with_range "/logs/run.log" "bytes=-12")
           "0-4" "5-" "-12" demo_log 0 4 12);
    try reflexivity; simpl; lia.
Defined.

Lemma bare_dash_serves_whole_file_witness :
  let response :=
    serve (demo_handle_range_request (get_with_range "/logs/run.log" "bytes=-")) in
  status_of response = Some 206 /\
  body_of response = demo_log /\
  header_values "Content-Range" response =
    ["bytes 0-" ++ Py.str (Z.of_nat (List.length demo_log) - 1) ++ "/"
                ++ Py.str (Z.of_nat (List.length demo_log))].
Proof.
  apply (bare_dash_serves_whole_file demo_translate_path demo_fs
           demo_version demo_date demo_responses demo_error_page demo_repr
           (get_with_range "/logs/run.log" "bytes=-") demo_log);
    [reflexivity | reflexivity | discriminate].
Defined.

Lemma only_partial_content_has_range_headers_witness :
  let response :=
    serve (demo_handle_range_request (get_with_range "/logs/run.log" "bytes=20-30")) in
  header_values "Content-Range" response = [] /\
  header_values "Accept-Ranges" response = [].
Proof.
  apply (only_partial_content_has_range_headers demo_translate_path demo_fs
           demo_version demo_date demo_responses demo_error_page demo_repr
           (get_with_range "/logs/run.log" "bytes=20-30")).
  vm_compute. discriminate.
Defined.

Lemma served_bytes_survive_growth_witness :
  let self := get_with_range "/logs/run.log" "bytes=2-5" in
  let before := serve (demo_handle_range_request self) in
  let after :=
    serve (handle_range_request demo_translate_path demo_fs_grown demo_version
             demo_date demo_responses demo_error_page demo_repr self) in
  status_of before = Some 206 /\ status_of after = Some 206 /\
  body_of after = body_of before.
Proof.
  apply (served_bytes_survive_growth demo_translate_path demo_fs demo_fs_grown
           demo_version demo_date demo_responses demo_error_page demo_repr
           (get_with_range "/logs/run.log" "bytes=2-5") "2-5" demo_log
           [x6d; x6f; x72; x65; x0a] 2 5);
    try reflexivity; simpl; lia.
Defined.
